(** * ICMPv6 input processing of NuttX: [net/icmpv6/icmpv6_input.c]

    A shallow embedding of [icmpv6_input] and the properties of it that the
    design document states.  The packet buffer [d_buf] is a list of bytes,
    every access to it is checked against the size of the array, the global
    statistics, the echo callback and the calls into the neighbor table and
    the callback chain are threaded through a small state-and-error monad. *)

From Stdlib Require Import ZArith Lia.
From stdpp Require Import base option list.

(** ** Part 1: definitions *)

(** *** Byte buffers

    [peek off n buf] is what a read of [n] bytes at [&buf[off]] sees and
    [poke off bs buf] is the array after [memcpy(&buf[off], bs, |bs|)].
    Both are defined only inside the array: an access outside of it is
    undefined behaviour in C and [None] here. *)

Definition slice (off n : nat) (buf : list Z) : list Z :=
  take n (drop off buf).

Definition splice (off : nat) (bs buf : list Z) : list Z :=
  take off buf ++ bs ++ drop (off + length bs) buf.

Definition peek (off n : nat) (buf : list Z) : option (list Z) :=
  if decide (off + n ≤ length buf) then Some (slice off n buf) else None.

Definition poke (off : nat) (bs buf : list Z) : option (list Z) :=
  if decide (off + length bs ≤ length buf) then Some (splice off bs buf) else None.


(** *** Build configuration

    The options the file is compiled under ([#ifdef] in the source) and the
    constants it takes from headers that are not part of the sources at
    hand: the width of [net_stats_t] (nuttx/net/netstats.h), the [IFF_IPv6]
    bit of [d_flags] (net/if.h) and the [ICMPv6_ECHOREPLY] event flag
    (devif/devif.h).  [CONFIG_NET_ICMPv6v6_PING] is spelled as in the
    source. *)

Record config := {
  CONFIG_NET_STATISTICS : bool;
  CONFIG_NET_ICMPv6v6_PING : bool;
  CONFIG_NET_ETHERNET : bool;
  CONFIG_NET_MULTILINK : bool;
  CONFIG_ENDIAN_BIG : bool;
  NET_STATS_BITS : Z;
  IFF_IPv6 : Z;
  ICMPv6_ECHOREPLY : Z;
}.

(** The message and option codes, the protocol number and the sizes below
    are constants of headers that are not part of the sources
    (nuttx/net/icmpv6.h, nuttx/net/ip.h, net/if.h, net/ethernet.h).
    Section 6 of the design document gives the three message types the
    function consumes; the other values are those of the protocol
    (RFC 2460, RFC 4443, RFC 4861) and of Ethernet. *)

(** Modelled from the spec: [ICMPv6_ECHO_REQUEST], "128=Echo Request". *)
Definition ICMPv6_ECHO_REQUEST : Z := 128.

(** Modelled from the spec: [ICMPv6_ECHO_REPLY], "129=Echo Reply". *)
Definition ICMPv6_ECHO_REPLY : Z := 129.

(** Modelled from the spec: [ICMPv6_NEIGHBOR_SOLICIT], "135=Neighbor
    Solicitation". *)
Definition ICMPv6_NEIGHBOR_SOLICIT : Z := 135.

(** Modelled from the spec: [ICMPv6_NEIGHBOR_ADVERTISE], the type
    "Advertisement" of section 4.2; 136 in the protocol. *)
Definition ICMPv6_NEIGHBOR_ADVERTISE : Z := 136.

(** Modelled from the spec: [ICMPv6_FLAG_S], the "Solicited flag" of
    section 4.2; bit 0x40 of the flags byte in the protocol. *)
Definition ICMPv6_FLAG_S : Z := 64.

(** Modelled from the spec: [ICMPv6_OPTION_SOURCE_LINK_ADDRESS], the
    option kind "Source-Link-Layer-Address" of section 3; 1 in the
    protocol. *)
Definition ICMPv6_OPTION_SOURCE_LINK_ADDRESS : Z := 1.

(** Modelled from the spec: [ICMPv6_OPTION_TARGET_LINK_ADDRESS], the
    option kind "Target-Link-Layer-Address" of section 3; 2 in the
    protocol. *)
Definition ICMPv6_OPTION_TARGET_LINK_ADDRESS : Z := 2.

(** Modelled from the spec: [IP_PROTO_ICMP6], the "next-header" of the
    pseudo-header (glossary); 58 in the protocol. *)
Definition IP_PROTO_ICMP6 : Z := 58.

(** Modelled from the spec: [IFHWADDRLEN], the length of the "hardware
    address" of sections 4.2 and 6; six bytes on Ethernet. *)
Definition IFHWADDRLEN : nat := 6.

(** Modelled from the spec: [ETHER_ADDR_LEN], the length of a hardware
    address in the frame (section 4.2, step 4). *)
Definition ETHER_ADDR_LEN : nat := 6.

(** Modelled from the spec: [ETH_HDRLEN], the length of the Ethernet
    header (destination, source, type) in front of the packet. *)
Definition ETH_HDRLEN : nat := 14.

(** Modelled from the spec: [IPv6_HDRLEN], the length of the IPv6 header
    of section 6. *)
Definition IPv6_HDRLEN : nat := 40.

(** [struct icmpv6_iphdr_s] is declared in nuttx/net/icmpv6.h, which is
    not part of the sources.  The offsets of its fields are those of the
    wire layout of section 6: the IPv6 header (version, traffic class and
    flow label, payload length, next header, hop limit, source and
    destination address) followed by type, code, checksum, four
    type-specific bytes (flags, reserved1..3), the sixteen bytes of
    [icmpv6data] and the options. *)

(** Modelled from the spec: offset of [len], the "payload length". *)
Definition off_len : nat := 4.

(** Modelled from the spec: offset of [srcipaddr], "source addr 16B". *)
Definition off_srcipaddr : nat := 8.

(** Modelled from the spec: offset of [destipaddr], "destination addr
    16B". *)
Definition off_destipaddr : nat := 24.

(** Modelled from the spec: offset of [type], "type(1)". *)
Definition off_type : nat := 40.

(** Modelled from the spec: offset of the code byte, "code(1)". *)
Definition off_icode : nat := 41.

(** Modelled from the spec: offset of [icmpv6chksum], "checksum(2)". *)
Definition off_icmpv6chksum : nat := 42.

(** Modelled from the spec: offset of [flags], the first of the
    "type-specific(4)" bytes. *)
Definition off_flags : nat := 44.

(** Modelled from the spec: offset of [reserved1]. *)
Definition off_reserved1 : nat := 45.

(** Modelled from the spec: offset of [reserved2]. *)
Definition off_reserved2 : nat := 46.

(** Modelled from the spec: offset of [reserved3]. *)
Definition off_reserved3 : nat := 47.

(** Modelled from the spec: offset of [icmpv6data], the "target address
    for Neighbor Discovery" of section 3. *)
Definition off_icmpv6data : nat := 48.

(** Modelled from the spec: offset of [options], the "variable-length
    options list" of section 3. *)
Definition off_options : nat := 64.

(** Modelled from the spec: offset of [dest] in [struct eth_hdr_s], the
    frame's destination hardware address (section 4.2, step 4). *)
Definition off_eth_dest : nat := 0.

(** Modelled from the spec: offset of [src] in [struct eth_hdr_s], the
    frame's source hardware address (section 4.2, step 4). *)
Definition off_eth_src : nat := 6.

(** *** The device and the globals *)

(** Modelled from the spec: [enum net_lltype_e] of nuttx/net/net.h, which
    is not part of the sources: the "configured medium" of sections 4.2 and
    9, Ethernet being the one with hardware addresses in the frame. *)
Inductive net_lltype_e := NET_LL_ETHERNET | NET_LL_SLIP | NET_LL_PPP.

#[global] Instance net_lltype_e_eq_dec : EqDecision net_lltype_e.
Proof. solve_decision. Defined.

(** Modelled from the spec: [struct net_driver_s] of nuttx/net/netdev.h,
    which is not part of the sources: the fields the function names
    ([d_flags], [d_lltype], [d_mac], [d_ipv6addr], [d_buf], [d_len]) and
    [d_llhdrlen], which [NET_LL_HDRLEN] reads.  [d_buf] is the buffer array
    as a whole, [d_len] the "declared length" of section 6; addresses are
    sequences of bytes. *)
Record net_driver_s := {
  d_flags : Z;
  d_lltype : net_lltype_e;
  d_llhdrlen : nat;
  d_mac : list Z;
  d_ipv6addr : list Z;
  d_buf : list Z;
  d_len : Z;
}.

Definition set_d_flags (v : Z) (dev : net_driver_s) : net_driver_s :=
  {| d_flags := v; d_lltype := d_lltype dev; d_llhdrlen := d_llhdrlen dev;
     d_mac := d_mac dev; d_ipv6addr := d_ipv6addr dev; d_buf := d_buf dev;
     d_len := d_len dev |}.

Definition set_d_buf (v : list Z) (dev : net_driver_s) : net_driver_s :=
  {| d_flags := d_flags dev; d_lltype := d_lltype dev;
     d_llhdrlen := d_llhdrlen dev; d_mac := d_mac dev;
     d_ipv6addr := d_ipv6addr dev; d_buf := v; d_len := d_len dev |}.

Definition set_d_len (v : Z) (dev : net_driver_s) : net_driver_s :=
  {| d_flags := d_flags dev; d_lltype := d_lltype dev;
     d_llhdrlen := d_llhdrlen dev; d_mac := d_mac dev;
     d_ipv6addr := d_ipv6addr dev; d_buf := d_buf dev; d_len := v |}.

(** Modelled from the spec: [g_netstats] of nuttx/net/netstats.h, which is
    not part of the sources: the counters the function names,
    [icmpv6.recv], [icmpv6.sent], [icmpv6.drop], [icmpv6.typeerr] and
    [ip.sent] (section 6: received, sent, dropped, type_error). *)

Record net_stats_s := {
  icmpv6_recv : Z;
  icmpv6_sent : Z;
  icmpv6_drop : Z;
  icmpv6_typeerr : Z;
  ip_sent : Z;
}.

(** The calls to the two collaborators that have state, the Neighbor Cache
    ([net_neighbor_add]) and the chain of echo waiters
    ([devif_callback_execute]), in the order they are made.  The checksum
    engine, which the function calls as well, reads the device and changes
    nothing; it is not logged. *)

Inductive extcall :=
  | Call_net_neighbor_add (ipaddr : list Z) (addr : list Z)
  | Call_devif_callback_execute (flags : Z).

(** Modelled from the spec: the callback chain of devif/devif.h, which is
    not part of the sources.  Section 6: [dispatch(packet_view, signal) ->
    signal]; the chain is handed the device (the packet lives in its
    buffer) and the event flags, may change the device and returns the
    flags.  [g_echocallback] is [None] for the NULL pointer. *)

Definition devif_callback_s : Type := net_driver_s → Z → net_driver_s * Z.

Record world := {
  g_netstats : net_stats_s;
  g_echocallback : option devif_callback_s;
  calls : list extcall;
}.

Definition set_g_netstats (v : net_stats_s) (w : world) : world :=
  {| g_netstats := v; g_echocallback := g_echocallback w; calls := calls w |}.

Definition log_call (c : extcall) (w : world) : world :=
  {| g_netstats := g_netstats w; g_echocallback := g_echocallback w;
     calls := calls w ++ [c] |}.

(** *** The monad: state and undefined behaviour *)

Definition state : Type := net_driver_s * world.

Definition M (A : Type) : Type := state → option (A * state).

Definition ret {A} (a : A) : M A := λ s, Some (a, s).

Definition bind {A B} (m : M A) (k : A → M B) : M B :=
  λ s, match m s with
       | Some (a, s') => k a s'
       | None => None
       end.

Notation "x <- m ;; k" := (bind m (λ x, k))
  (at level 20, m at level 99, k at level 200, only parsing).
Notation "m ;; k" := (bind m (λ _, k))
  (at level 100, k at level 200, right associativity, only parsing).

Definition fault {A} : M A := λ _, None.

Definition lift_option {A} (o : option A) : M A :=
  λ s, match o with Some a => Some (a, s) | None => None end.

Definition get_dev : M net_driver_s := λ s, Some (s.1, s).
Definition get_world : M world := λ s, Some (s.2, s).
Definition modify_dev (f : net_driver_s → net_driver_s) : M unit :=
  λ s, Some (tt, (f s.1, s.2)).
Definition modify_world (f : world → world) : M unit :=
  λ s, Some (tt, (s.1, f s.2)).

(** Reads and writes of [dev->d_buf]. *)

Definition buf_load (off n : nat) : M (list Z) :=
  dev <- get_dev ;; lift_option (peek off n (d_buf dev)).

Definition buf_store (off : nat) (bs : list Z) : M unit :=
  dev <- get_dev ;;
  buf <- lift_option (poke off bs (d_buf dev)) ;;
  modify_dev (set_d_buf buf).

(** [memcpy(&dev->d_buf[off], src, n)] from an object outside the buffer. *)

Definition buf_memcpy (off : nat) (src : list Z) (n : nat) : M unit :=
  bs <- lift_option (peek 0 n src) ;; buf_store off bs.

(** Modelled from the spec: [NET_LL_HDRLEN] of nuttx/net/netdev.h, which is
    not part of the sources: the "known offset" of section 4.1, the length
    of the link-layer header in front of the IPv6 header.  It is a field of
    the device when several link layers are configured, the Ethernet header
    otherwise, and nothing on a link without one. *)

Definition NET_LL_HDRLEN (cfg : config) (dev : net_driver_s) : nat :=
  if CONFIG_NET_MULTILINK cfg then d_llhdrlen dev
  else if CONFIG_NET_ETHERNET cfg then ETH_HDRLEN
  else 0.

(** Accesses through [icmp = ICMPv6BUF], i.e. relative to
    [&dev->d_buf[NET_LL_HDRLEN(dev)]]. *)

Definition icmp_load (cfg : config) (off n : nat) : M (list Z) :=
  dev <- get_dev ;; buf_load (NET_LL_HDRLEN cfg dev + off) n.

Definition icmp_store (cfg : config) (off : nat) (bs : list Z) : M unit :=
  dev <- get_dev ;; buf_store (NET_LL_HDRLEN cfg dev + off) bs.

Definition icmp_memcpy (cfg : config) (off : nat) (src : list Z) (n : nat) : M unit :=
  dev <- get_dev ;; buf_memcpy (NET_LL_HDRLEN cfg dev + off) src n.

Definition icmp_load8 (cfg : config) (off : nat) : M Z :=
  bs <- icmp_load cfg off 1 ;;
  match bs with
  | [b] => ret b
  | _ => fault
  end.

Definition icmp_store8 (cfg : config) (off : nat) (v : Z) : M unit :=
  icmp_store cfg off [v].

(** A [uint16_t] field is stored in the byte order of the host. *)

Definition uint16_bytes (cfg : config) (v : Z) : list Z :=
  if CONFIG_ENDIAN_BIG cfg then [(v / 256)%Z; (v mod 256)%Z]
  else [(v mod 256)%Z; (v / 256)%Z].

Definition icmp_store16 (cfg : config) (off : nat) (v : Z) : M unit :=
  icmp_store cfg off (uint16_bytes cfg v).

(** The fields of the packet in the buffer, for the statements. *)

Definition icmp_field (cfg : config) (dev : net_driver_s) (off n : nat) : list Z :=
  slice (NET_LL_HDRLEN cfg dev + off) n (d_buf dev).

(** [(icmp->len[0] << 8) | icmp->len[1]], as the source prints it; the
    argument is the two bytes of [len]. *)

Definition icmpv6_len (len : list Z) : Z :=
  match len with
  | [l0; l1] => Z.lor (Z.shiftl l0 8) l1
  | _ => 0
  end.

Definition icmp_paylen (cfg : config) (dev : net_driver_s) : nat :=
  Z.to_nat (icmpv6_len (icmp_field cfg dev off_len 2)).

(** *** Statistics *)

Definition stat_incr (cfg : config) (c : Z) : Z :=
  ((c + 1) mod 2 ^ NET_STATS_BITS cfg)%Z.

Definition recv_incr cfg (s : net_stats_s) : net_stats_s :=
  {| icmpv6_recv := stat_incr cfg (icmpv6_recv s); icmpv6_sent := icmpv6_sent s;
     icmpv6_drop := icmpv6_drop s; icmpv6_typeerr := icmpv6_typeerr s;
     ip_sent := ip_sent s |}.

Definition sent_incr cfg (s : net_stats_s) : net_stats_s :=
  {| icmpv6_recv := icmpv6_recv s; icmpv6_sent := stat_incr cfg (icmpv6_sent s);
     icmpv6_drop := icmpv6_drop s; icmpv6_typeerr := icmpv6_typeerr s;
     ip_sent := ip_sent s |}.

Definition drop_incr cfg (s : net_stats_s) : net_stats_s :=
  {| icmpv6_recv := icmpv6_recv s; icmpv6_sent := icmpv6_sent s;
     icmpv6_drop := stat_incr cfg (icmpv6_drop s);
     icmpv6_typeerr := icmpv6_typeerr s; ip_sent := ip_sent s |}.

Definition typeerr_incr cfg (s : net_stats_s) : net_stats_s :=
  {| icmpv6_recv := icmpv6_recv s; icmpv6_sent := icmpv6_sent s;
     icmpv6_drop := icmpv6_drop s;
     icmpv6_typeerr := stat_incr cfg (icmpv6_typeerr s); ip_sent := ip_sent s |}.

Definition ip_sent_incr cfg (s : net_stats_s) : net_stats_s :=
  {| icmpv6_recv := icmpv6_recv s; icmpv6_sent := icmpv6_sent s;
     icmpv6_drop := icmpv6_drop s; icmpv6_typeerr := icmpv6_typeerr s;
     ip_sent := stat_incr cfg (ip_sent s) |}.

(** A statement under [#ifdef CONFIG_NET_STATISTICS]. *)

Definition netstats (cfg : config) (f : net_stats_s → net_stats_s) : M unit :=
  if CONFIG_NET_STATISTICS cfg
  then modify_world (λ w, set_g_netstats (f (g_netstats w)) w)
  else ret tt.


(** *** The collaborators *)

(** Modelled from the spec: [net_ipv6addr_cmp] of nuttx/net/ip.h, which is
    not part of the sources: equality of the sixteen bytes of two addresses
    ("target address field in the message equals this node's configured
    address"). *)
Definition net_ipv6addr_cmp (a b : list Z) : bool := bool_decide (a = b).

(** Modelled from the spec: [net_ipv6addr_copy] of nuttx/net/ip.h between
    two fields of the packet ("destination address := original source
    address"). *)
Definition net_ipv6addr_copy_buf (cfg : config) (dest src : nat) : M unit :=
  a <- icmp_load cfg src 16 ;; icmp_store cfg dest a.

(** Modelled from the spec: [net_ipv6addr_copy] of nuttx/net/ip.h from an
    address outside the buffer ("source address := this node's address"). *)
Definition net_ipv6addr_copy (cfg : config) (dest : nat) (src : list Z) : M unit :=
  icmp_memcpy cfg dest src 16.

(** Modelled from the spec: [net_neighbor_add] of neighbor/neighbor.h, which
    is not part of the sources.  Section 6: [upsert(ipv6_address,
    link_layer_address)].  The call is recorded with what its two pointers
    designate: the sixteen bytes of the address and the [IFHWADDRLEN] bytes
    of the link-layer address. *)

Definition net_neighbor_add (cfg : config) (ipaddr addr : nat) : M unit :=
  ip <- icmp_load cfg ipaddr 16 ;;
  hw <- icmp_load cfg addr IFHWADDRLEN ;;
  modify_world (log_call (Call_net_neighbor_add ip hw)).

(** Modelled from the spec: [devif_callback_execute] of devif/devif.h, which
    is not part of the sources: the chain is run on the device with the
    flags, and the call is recorded. *)

Definition devif_callback_execute (flags : Z) (chain : devif_callback_s) : M Z :=
  λ s, let r := chain s.1 flags in
       Some (r.2, (r.1, log_call (Call_devif_callback_execute flags) s.2)).

(** [icmpv6_chksum] is declared in utils/utils.h and defined outside the
    sources at hand.  Section 2 and the glossary describe it: the
    one's-complement checksum over the IPv6 pseudo-header (source and
    destination address, length, next header) plus the ICMPv6 message, the
    sum of their 16-bit words with the carry added back in.  The message is
    the payload that the length field of the IPv6 header announces; the
    result is in network byte order, as the field it is written to is. *)

(** Modelled from the spec: one's-complement addition of two 16-bit
    words, the carry out of bit 15 added back in. *)
Definition ocadd (a b : Z) : Z :=
  let s := (a + b)%Z in if (65535 <? s)%Z then (s - 65535)%Z else s.

(** Modelled from the spec: the 16-bit words of a sequence of bytes, high
    byte first, an odd last byte padded with zero. *)
Fixpoint words (bs : list Z) : list Z :=
  match bs with
  | hi :: lo :: rest => (hi * 256 + lo)%Z :: words rest
  | [hi] => [(hi * 256)%Z]
  | [] => []
  end.

(** Modelled from the spec: the one's-complement sum of a list of
    words. *)
Definition ocsum (ws : list Z) : Z := fold_left ocadd ws 0%Z.

(** Modelled from the spec: the bytes the checksum runs over, pseudo-header
    (addresses, 32-bit length, three zero bytes and the next header) and
    message. *)
Definition chksum_data (cfg : config) (dev : net_driver_s) : option (list Z) :=
  let b := NET_LL_HDRLEN cfg dev in
  len ← peek (b + off_len) 2 (d_buf dev);
  addrs ← peek (b + off_srcipaddr) 32 (d_buf dev);
  msg ← peek (b + IPv6_HDRLEN) (Z.to_nat (icmpv6_len len)) (d_buf dev);
  Some (addrs ++ [0%Z; 0%Z] ++ len ++ [0%Z; 0%Z; 0%Z; IP_PROTO_ICMP6] ++ msg).

(** Modelled from the spec: [htons], host to network byte order of a
    16-bit value. *)
Definition htons (cfg : config) (x : Z) : Z :=
  if CONFIG_ENDIAN_BIG cfg then x else ((x mod 256) * 256 + x / 256)%Z.

(** Modelled from the spec: the result of [icmpv6_chksum] on a device. *)
Definition icmpv6_chksum_of (cfg : config) (dev : net_driver_s) : option Z :=
  htons cfg ∘ ocsum ∘ words <$> chksum_data cfg dev.

(** Modelled from the spec: [icmpv6_chksum(dev)]; it reads the device and
    changes nothing. *)
Definition icmpv6_chksum (cfg : config) : M Z :=
  dev <- get_dev ;; lift_option (icmpv6_chksum_of cfg dev).

(** Modelled from the spec: the receiver's check of section 8: the words
    of pseudo-header and message, checksum field included, sum to all
    ones, whose complement is zero. *)
Definition icmpv6_chksum_valid (cfg : config) (dev : net_driver_s) : Prop :=
  ocsum ∘ words <$> chksum_data cfg dev = Some 65535%Z.

(** The device with the checksum field of the message set to zero. *)

Definition chksum_zeroed (cfg : config) (dev : net_driver_s) : net_driver_s :=
  set_d_buf (splice (NET_LL_HDRLEN cfg dev + off_icmpv6chksum)
               (uint16_bytes cfg 0) (d_buf dev)) dev.

(** *** icmpv6_input *)

(** [~x] assigned to a [uint16_t]. *)

Definition lnot16 (x : Z) : Z := (Z.lnot x mod 2 ^ 16)%Z.

(** Modelled from the spec: [IFF_SET_IPv6] of net/if.h, which is not part
    of the sources and of which the design document says nothing; by the
    comment at its use it sets a bit in [d_flags], and the bit is a
    parameter of the build. *)

Definition IFF_SET_IPv6 (cfg : config) (f : Z) : Z := Z.lor f (IFF_IPv6 cfg).

(** Where control goes after the [if] chain: on to the statements that
    follow it, or to one of the two labels. *)

Inductive jump := Next | Goto_typeerr | Goto_drop.

(** The function.  [icmp->type] is not written between the comparisons of
    the [if] chain and is loaded once; the two debug messages have no
    effect and are left out. *)

Definition icmpv6_input (cfg : config) : M unit :=
  netstats cfg (recv_incr cfg) ;;
  modify_dev (λ dev, set_d_flags (IFF_SET_IPv6 cfg (d_flags dev)) dev) ;;
  type <- icmp_load8 cfg off_type ;;
  j <- (if (type =? ICMPv6_NEIGHBOR_SOLICIT)%Z then
          dev <- get_dev ;;
          data <- icmp_load cfg off_icmpv6data 16 ;;
          if net_ipv6addr_cmp data (d_ipv6addr dev) then
            opt0 <- icmp_load8 cfg off_options ;;
            (if (opt0 =? ICMPv6_OPTION_SOURCE_LINK_ADDRESS)%Z
             then net_neighbor_add cfg off_srcipaddr (off_options + 2)
             else ret tt) ;;
            icmp_store8 cfg off_type ICMPv6_NEIGHBOR_ADVERTISE ;;
            icmp_store8 cfg off_flags ICMPv6_FLAG_S ;;
            icmp_store8 cfg off_reserved1 0 ;;
            icmp_store8 cfg off_reserved2 0 ;;
            icmp_store8 cfg off_reserved3 0 ;;
            net_ipv6addr_copy_buf cfg off_destipaddr off_srcipaddr ;;
            net_ipv6addr_copy cfg off_srcipaddr (d_ipv6addr dev) ;;
            icmp_store8 cfg off_options ICMPv6_OPTION_TARGET_LINK_ADDRESS ;;
            icmp_store8 cfg (off_options + 1) 1 ;;
            icmp_memcpy cfg (off_options + 2) (d_mac dev) IFHWADDRLEN ;;
            icmp_store16 cfg off_icmpv6chksum 0 ;;
            c <- icmpv6_chksum cfg ;;
            icmp_store16 cfg off_icmpv6chksum (lnot16 c) ;;
            (if CONFIG_NET_ETHERNET cfg then
               if negb (CONFIG_NET_MULTILINK cfg)
                  || bool_decide (d_lltype dev = NET_LL_ETHERNET)
               then
                 src <- buf_load off_eth_src ETHER_ADDR_LEN ;;
                 buf_store off_eth_dest src ;;
                 buf_memcpy off_eth_src (d_mac dev) ETHER_ADDR_LEN
               else ret tt
             else ret tt) ;;
            ret Next
          else ret Goto_drop
        else if (type =? ICMPv6_ECHO_REQUEST)%Z then
          dev <- get_dev ;;
          icmp_store8 cfg off_type ICMPv6_ECHO_REPLY ;;
          net_ipv6addr_copy_buf cfg off_destipaddr off_srcipaddr ;;
          net_ipv6addr_copy cfg off_srcipaddr (d_ipv6addr dev) ;;
          icmp_store16 cfg off_icmpv6chksum 0 ;;
          c <- icmpv6_chksum cfg ;;
          icmp_store16 cfg off_icmpv6chksum (lnot16 c) ;;
          ret Next
        else
          w <- get_world ;;
          if CONFIG_NET_ICMPv6v6_PING cfg
             && (type =? ICMPv6_ECHO_REPLY)%Z
             && bool_decide (is_Some (g_echocallback w))
          then
            flags <- match g_echocallback w with
                     | Some chain =>
                         devif_callback_execute (ICMPv6_ECHOREPLY cfg) chain
                     | None => ret (ICMPv6_ECHOREPLY cfg)
                     end ;;
            if (flags =? ICMPv6_ECHOREPLY cfg)%Z then ret Goto_drop
            else ret Next
          else ret Goto_typeerr) ;;
  match j with
  | Next =>
      netstats cfg (sent_incr cfg) ;;
      netstats cfg (ip_sent_incr cfg)
  | Goto_typeerr =>
      netstats cfg (typeerr_incr cfg) ;;
      netstats cfg (drop_incr cfg) ;;
      modify_dev (set_d_len 0)
  | Goto_drop =>
      netstats cfg (drop_incr cfg) ;;
      modify_dev (set_d_len 0)
  end.

(** *** Vocabulary of the statements *)

(** Whether the Ethernet header is rewritten on the advertisement path. *)

Definition eth_rewrites (cfg : config) (dev : net_driver_s) : bool :=
  CONFIG_NET_ETHERNET cfg
  && (negb (CONFIG_NET_MULTILINK cfg)
      || bool_decide (d_lltype dev = NET_LL_ETHERNET)).

(** The device is set up and its buffer array holds the structure the
    function works on, [struct icmpv6_iphdr_s] with room for one option of
    eight bytes; an Ethernet device has the Ethernet header in front of the
    packet. *)

Definition device_ok (cfg : config) (dev : net_driver_s) : Prop :=
  length (d_ipv6addr dev) = 16
  ∧ length (d_mac dev) = 6
  ∧ NET_LL_HDRLEN cfg dev + 72 ≤ length (d_buf dev)
  ∧ (eth_rewrites cfg dev = true → NET_LL_HDRLEN cfg dev = ETH_HDRLEN).

(** The payload the IPv6 header announces lies in the buffer array. *)

Definition payload_ok (cfg : config) (dev : net_driver_s) : Prop :=
  NET_LL_HDRLEN cfg dev + IPv6_HDRLEN + icmp_paylen cfg dev ≤ length (d_buf dev).

Definition is_byte (b : Z) : Prop := (0 ≤ b < 256)%Z.

#[global] Instance is_byte_dec b : Decision (is_byte b).
Proof. unfold is_byte. apply _. Defined.

(** Modelled from the spec: the option list of a neighbor discovery message
    (section 3): each option is a type byte, a length byte in units of
    eight bytes that counts the two bytes themselves, and length*8-2 bytes
    of value; the list runs from the end of the target address to the end
    of the payload. *)

Record icmpv6_option := {
  opt_type : Z;
  opt_len : Z;
  opt_value : list Z;
}.

(** Modelled from the spec: the options in a sequence of bytes, or [None]
    when a length is zero or reaches beyond the bytes; every option takes
    at least eight bytes, so that the number of bytes is fuel enough. *)
Fixpoint parse_options (fuel : nat) (bs : list Z) : option (list icmpv6_option) :=
  match bs with
  | [] => Some []
  | [_] => None
  | t :: l :: rest =>
      match fuel with
      | 0 => None
      | S fuel' =>
          if decide (0 < l ∧ 8 * l ≤ Z.of_nat (length bs))%Z then
            tl ← parse_options fuel' (drop (Z.to_nat (8 * l) - 2) rest);
            Some ({| opt_type := t; opt_len := l;
                     opt_value := take (Z.to_nat (8 * l) - 2) rest |} :: tl)
          else None
      end
  end.

(** Modelled from the spec: the option list of the neighbor discovery
    message in the buffer, from offset 24 of the payload to its end. *)
Definition icmpv6_options (cfg : config) (dev : net_driver_s) : option (list icmpv6_option) :=
  let n := icmp_paylen cfg dev in
  if decide (24 ≤ n) then
    bs ← peek (NET_LL_HDRLEN cfg dev + off_options) (n - 24) (d_buf dev);
    parse_options (length bs) bs
  else None.

(** The first option of a solicitation is a well-formed source link-layer
    address option: the type is right, the length is at least one unit of
    eight bytes, and the option ends within the payload. *)

Definition first_option_sllao (cfg : config) (dev : net_driver_s) : Prop :=
  icmp_field cfg dev off_options 1 = [ICMPv6_OPTION_SOURCE_LINK_ADDRESS]
  ∧ ∃ l, icmp_field cfg dev (off_options + 1) 1 = [l]
         ∧ (0 < l)%Z
         ∧ (Z.of_nat (off_options - IPv6_HDRLEN) + 8 * l
            ≤ Z.of_nat (icmp_paylen cfg dev))%Z.

(** The first option announces a length that ends beyond the declared
    length [d_len] of the packet.  The length is counted from the IPv6
    header, where the option starts at offset 64; an option that overruns
    in this sense overruns all the more when the length is counted from
    the start of the array. *)

Definition first_option_overruns (cfg : config) (dev : net_driver_s) : Prop :=
  ∃ l, icmp_field cfg dev (off_options + 1) 1 = [l]
       ∧ (d_len dev < Z.of_nat off_options + 8 * l)%Z.

(** The target link-layer address option of an advertisement. *)

Definition tllao (mac : list Z) : icmpv6_option :=
  {| opt_type := ICMPv6_OPTION_TARGET_LINK_ADDRESS; opt_len := 1;
     opt_value := mac |}.

(** The device as the echo waiters leave it.  The chain runs, on the device
    with the IPv6 flag set, when echo waiting is compiled in, the message
    is an Echo Reply and a chain is registered; in every other case nothing
    outside [icmpv6_input] touches the device. *)

Definition after_waiters (cfg : config) (dev : net_driver_s) (w : world) : net_driver_s :=
  if CONFIG_NET_ICMPv6v6_PING cfg
     && bool_decide (icmp_field cfg dev off_type 1 = [ICMPv6_ECHO_REPLY])
  then
    match g_echocallback w with
    | Some chain =>
        (chain (set_d_flags (IFF_SET_IPv6 cfg (d_flags dev)) dev)
               (ICMPv6_ECHOREPLY cfg)).1
    | None => dev
    end
  else dev.

(** The sum of a list of words as an integer, and the range of a word. *)

Definition sumZ (ws : list Z) : Z := foldr Z.add 0%Z ws.

Definition is_word (w : Z) : Prop := (0 ≤ w ≤ 65535)%Z.

(** *** Running the function

    [wp m Q s]: from state [s] the computation [m] is defined (no access
    outside the buffer array) and its result and final state satisfy [Q].
    [wlp m Q s]: if [m] is defined from state [s], its result and final
    state satisfy [Q]. *)

Definition wp {A} (m : M A) (Q : A → state → Prop) (s : state) : Prop :=
  ∃ a s', m s = Some (a, s') ∧ Q a s'.

Definition wlp {A} (m : M A) (Q : A → state → Prop) (s : state) : Prop :=
  ∀ a s', m s = Some (a, s') → Q a s'.

(** *** Concrete inputs

    An Ethernet build on a little-endian host with statistics and echo
    waiting compiled in, a node [fe80::1] with a peer [fe80::2], and the
    packets the examples below run the function on. *)

Definition cfg_eth : config :=
  {| CONFIG_NET_STATISTICS := true; CONFIG_NET_ICMPv6v6_PING := true;
     CONFIG_NET_ETHERNET := true; CONFIG_NET_MULTILINK := false;
     CONFIG_ENDIAN_BIG := false; NET_STATS_BITS := 16; IFF_IPv6 := 8;
     ICMPv6_ECHOREPLY := 1024 |}.

Definition addr_own : list Z := [254; 128; 0; 0; 0; 0; 0; 0; 0; 0; 0; 0; 0; 0; 0; 1]%Z.
Definition addr_peer : list Z := [254; 128; 0; 0; 0; 0; 0; 0; 0; 0; 0; 0; 0; 0; 0; 2]%Z.
Definition addr_allnodes : list Z := [255; 2; 0; 0; 0; 0; 0; 0; 0; 0; 0; 0; 0; 0; 0; 1]%Z.
Definition mac_own : list Z := [2; 0; 0; 0; 0; 1]%Z.
Definition mac_peer : list Z := [2; 0; 0; 0; 0; 2]%Z.

Definition eth_hdr (dest src : list Z) : list Z := dest ++ src ++ [134; 221]%Z.

Definition ipv6_hdr (paylen : Z) (src dest : list Z) : list Z :=
  [96; 0; 0; 0; paylen / 256; paylen mod 256; 58; 255]%Z ++ src ++ dest.

(** A device whose buffer array starts with [frame]; what follows the frame
    in the array is [stale]. *)

Definition mk_dev (frame stale : list Z) (len : Z) : net_driver_s :=
  {| d_flags := 2; d_lltype := NET_LL_ETHERNET; d_llhdrlen := ETH_HDRLEN;
     d_mac := mac_own; d_ipv6addr := addr_own; d_buf := frame ++ stale;
     d_len := len |}.

Definition stats0 : net_stats_s :=
  {| icmpv6_recv := 7; icmpv6_sent := 5; icmpv6_drop := 3;
     icmpv6_typeerr := 1; ip_sent := 9 |}.

Definition world0 : world :=
  {| g_netstats := stats0; g_echocallback := None; calls := [] |}.

(** A waiter that claims every reply: it clears the flag and consumes the
    packet. *)

Definition claiming_waiter : devif_callback_s :=
  λ dev flags, (set_d_len 0 dev, 0%Z).

Definition world_waiting : world :=
  {| g_netstats := stats0; g_echocallback := Some claiming_waiter; calls := [] |}.

(** A solicitation for [fe80::1] from the peer with its link-layer address
    in a source link-layer address option. *)

Definition dev_solicit : net_driver_s :=
  mk_dev (eth_hdr mac_own mac_peer ++ ipv6_hdr 32 addr_peer addr_own
          ++ [135; 0; 18; 52; 0; 0; 0; 0]%Z ++ addr_own
          ++ [1; 1]%Z ++ mac_peer)
         (replicate 16 170%Z) 72.

(** The same with a second option (type 14, a nonce) behind the first. *)

Definition dev_solicit_two_options : net_driver_s :=
  mk_dev (eth_hdr mac_own mac_peer ++ ipv6_hdr 40 addr_peer addr_own
          ++ [135; 0; 18; 52; 0; 0; 0; 0]%Z ++ addr_own
          ++ [1; 1]%Z ++ mac_peer ++ [14; 1; 1; 2; 3; 4; 5; 6]%Z)
         (replicate 16 170%Z) 80.

(** A solicitation cut off behind the two bytes that announce an option of
    eight bytes: the packet is 66 bytes long and ends at offset 80 of the
    array, six bytes short of the end of the option. *)

Definition dev_solicit_truncated_with (stale : list Z) : net_driver_s :=
  mk_dev (eth_hdr mac_own mac_peer ++ ipv6_hdr 26 addr_peer addr_own
          ++ [135; 0; 18; 52; 0; 0; 0; 0]%Z ++ addr_own ++ [1; 1]%Z)
         stale 66.

Definition dev_solicit_truncated : net_driver_s :=
  dev_solicit_truncated_with (replicate 16 170%Z).

(** A solicitation from the peer for an address that is not ours. *)

Definition dev_solicit_other : net_driver_s :=
  mk_dev (eth_hdr mac_own mac_peer ++ ipv6_hdr 32 addr_peer addr_allnodes
          ++ [135; 0; 18; 52; 0; 0; 0; 0]%Z ++ addr_peer
          ++ [1; 1]%Z ++ mac_peer)
         (replicate 16 170%Z) 72.

(** Echo requests: from the peer, and one sent to the all-nodes group with
    our own address as its source. *)

Definition echo_body (type : Z) : list Z :=
  [type; 0; 18; 52; 190; 239; 0; 7; 104; 101; 108; 108; 111]%Z.

Definition dev_echo_request : net_driver_s :=
  mk_dev (eth_hdr mac_own mac_peer ++ ipv6_hdr 13 addr_peer addr_own
          ++ echo_body 128)
         (replicate 32 170%Z) 53.

Definition dev_echo_request_own_source : net_driver_s :=
  mk_dev (eth_hdr mac_own mac_peer ++ ipv6_hdr 13 addr_own addr_allnodes
          ++ echo_body 128)
         (replicate 32 170%Z) 53.

Definition dev_echo_reply : net_driver_s :=
  mk_dev (eth_hdr mac_own mac_peer ++ ipv6_hdr 13 addr_peer addr_own
          ++ echo_body 129)
         (replicate 32 170%Z) 53.

Definition dev_unknown : net_driver_s :=
  mk_dev (eth_hdr mac_own mac_peer ++ ipv6_hdr 13 addr_peer addr_own
          ++ echo_body 200)
         (replicate 32 170%Z) 53.

(** A waiter that claims every reply and cuts the packet down to seven
    bytes. *)

Definition resizing_waiter : devif_callback_s :=
  λ dev flags, (set_d_len 7 dev, 0%Z).

Definition world_resizing : world :=
  {| g_netstats := stats0; g_echocallback := Some resizing_waiter; calls := [] |}.

(** A waiter that looks at a reply and leaves it to others: the device and
    the flags are returned as they came. *)

Definition ignoring_waiter : devif_callback_s := λ dev flags, (dev, flags).

Definition world_ignored : world :=
  {| g_netstats := stats0; g_echocallback := Some ignoring_waiter; calls := [] |}.

(** The Ethernet build without statistics. *)

Definition cfg_nostat : config :=
  {| CONFIG_NET_STATISTICS := false; CONFIG_NET_ICMPv6v6_PING := true;
     CONFIG_NET_ETHERNET := true; CONFIG_NET_MULTILINK := false;
     CONFIG_ENDIAN_BIG := false; NET_STATS_BITS := 16; IFF_IPv6 := 8;
     ICMPv6_ECHOREPLY := 1024 |}.

(** The Ethernet build without echo waiting. *)

Definition cfg_nowaiting : config :=
  {| CONFIG_NET_STATISTICS := true; CONFIG_NET_ICMPv6v6_PING := false;
     CONFIG_NET_ETHERNET := true; CONFIG_NET_MULTILINK := false;
     CONFIG_ENDIAN_BIG := false; NET_STATS_BITS := 16; IFF_IPv6 := 8;
     ICMPv6_ECHOREPLY := 1024 |}.

(** A build with several link layers, and the solicitation of [dev_solicit]
    as it arrives on a PPP device, behind a header of four bytes. *)

Definition cfg_multilink : config :=
  {| CONFIG_NET_STATISTICS := true; CONFIG_NET_ICMPv6v6_PING := true;
     CONFIG_NET_ETHERNET := true; CONFIG_NET_MULTILINK := true;
     CONFIG_ENDIAN_BIG := false; NET_STATS_BITS := 16; IFF_IPv6 := 8;
     ICMPv6_ECHOREPLY := 1024 |}.

Definition dev_solicit_ppp : net_driver_s :=
  {| d_flags := 2; d_lltype := NET_LL_PPP; d_llhdrlen := 4;
     d_mac := mac_own; d_ipv6addr := addr_own;
     d_buf := [255; 3; 0; 87]%Z ++ ipv6_hdr 32 addr_peer addr_own
              ++ [135; 0; 18; 52; 0; 0; 0; 0]%Z ++ addr_own
              ++ [1; 1]%Z ++ mac_peer ++ replicate 16 170%Z;
     d_len := 72 |}.

(** ** Part 2: lemmas *)

Lemma slice_lookup off n buf (i : nat) :
  slice off n buf !! i = if decide (i < n) then buf !! (off + i) else None.
Proof.
  unfold slice. case_decide.
  - by rewrite lookup_take_lt, lookup_drop.
  - apply lookup_take_ge. lia.
Qed.

Lemma splice_lookup off bs buf (i : nat) :
  off + length bs ≤ length buf →
  splice off bs buf !! i =
    if decide (off ≤ i < off + length bs) then bs !! (i - off) else buf !! i.
Proof.
  intros Hin. unfold splice. case_decide as Hi.
  - rewrite lookup_app_r by (rewrite length_take; lia).
    rewrite length_take, Nat.min_l by lia.
    by rewrite lookup_app_l by lia.
  - destruct (decide (i < off)) as [Hlt|Hge].
    + rewrite lookup_app_l by (rewrite length_take; lia).
      by rewrite lookup_take_lt.
    + rewrite lookup_app_r by (rewrite length_take; lia).
      rewrite length_take, Nat.min_l by lia.
      rewrite lookup_app_r by lia.
      rewrite lookup_drop. f_equal. lia.
Qed.

Lemma length_slice off n buf :
  off + n ≤ length buf → length (slice off n buf) = n.
Proof. intros. unfold slice. rewrite length_take, length_drop. lia. Qed.

Lemma length_splice off bs buf :
  off + length bs ≤ length buf → length (splice off bs buf) = length buf.
Proof.
  intros. unfold splice.
  rewrite !length_app, length_take, length_drop. lia.
Qed.

Lemma slice_splice_eq off bs buf :
  off + length bs ≤ length buf → slice off (length bs) (splice off bs buf) = bs.
Proof.
  intros Hin. apply list_eq. intros i.
  rewrite slice_lookup. case_decide.
  - rewrite splice_lookup by done. rewrite decide_True by lia. f_equal. lia.
  - symmetry. apply lookup_ge_None. lia.
Qed.

Lemma slice_splice_ne o n off bs buf :
  off + length bs ≤ length buf →
  o + n ≤ off ∨ off + length bs ≤ o →
  slice o n (splice off bs buf) = slice o n buf.
Proof.
  intros Hin Hdisj. apply list_eq. intros i.
  rewrite !slice_lookup. case_decide; [|done].
  rewrite splice_lookup by done. by rewrite decide_False by lia.
Qed.


(** *** Rules of [wp] *)

Section wp_rules.
Context {A B : Type}.
Implicit Types (dev : net_driver_s) (w : world).

Lemma wp_ret (a : A) (Q : A → state → Prop) s : Q a s → wp (ret a) Q s.
Proof. intros. by exists a, s. Qed.

Lemma wp_bind (m : M A) (k : A → M B) (Q : B → state → Prop) s :
  wp m (λ a s', wp (k a) Q s') s → wp (bind m k) Q s.
Proof.
  intros (a & s' & Hm & b & s'' & Hk & HQ).
  exists b, s''. split; [|done]. unfold bind. by rewrite Hm.
Qed.

Lemma wp_lift_option (o : option A) (a : A) (Q : A → state → Prop) s :
  o = Some a → Q a s → wp (lift_option o) Q s.
Proof. intros -> HQ. by exists a, s. Qed.

End wp_rules.

Lemma wp_get_dev (Q : net_driver_s → state → Prop) dev w :
  Q dev (dev, w) → wp get_dev Q (dev, w).
Proof. intros. by exists dev, (dev, w). Qed.

Lemma wp_get_world (Q : world → state → Prop) dev w :
  Q w (dev, w) → wp get_world Q (dev, w).
Proof. intros. by exists w, (dev, w). Qed.

Lemma wp_modify_dev f (Q : unit → state → Prop) dev w :
  Q tt (f dev, w) → wp (modify_dev f) Q (dev, w).
Proof. intros. by exists tt, (f dev, w). Qed.

Lemma wp_modify_world f (Q : unit → state → Prop) dev w :
  Q tt (dev, f w) → wp (modify_world f) Q (dev, w).
Proof. intros. by exists tt, (dev, f w). Qed.

Lemma wp_netstats cfg f (Q : unit → state → Prop) dev w :
  Q tt (dev, if CONFIG_NET_STATISTICS cfg
             then set_g_netstats (f (g_netstats w)) w else w) →
  wp (netstats cfg f) Q (dev, w).
Proof.
  unfold netstats. destruct (CONFIG_NET_STATISTICS cfg); intros HQ.
  - by apply wp_modify_world.
  - by apply wp_ret.
Qed.

Lemma peek_Some off n buf :
  off + n ≤ length buf → peek off n buf = Some (slice off n buf).
Proof. intros. unfold peek. by rewrite decide_True. Qed.

Lemma poke_Some off bs buf :
  off + length bs ≤ length buf → poke off bs buf = Some (splice off bs buf).
Proof. intros. unfold poke. by rewrite decide_True. Qed.

Lemma wp_buf_load off n (Q : list Z → state → Prop) dev w :
  off + n ≤ length (d_buf dev) →
  Q (slice off n (d_buf dev)) (dev, w) →
  wp (buf_load off n) Q (dev, w).
Proof.
  intros Hin HQ. unfold buf_load. apply wp_bind, wp_get_dev.
  eapply wp_lift_option; [by apply peek_Some|done].
Qed.

Lemma wp_buf_store off bs (Q : unit → state → Prop) dev w :
  off + length bs ≤ length (d_buf dev) →
  (∀ buf', buf' = splice off bs (d_buf dev) →
           length buf' = length (d_buf dev) →
           Q tt (set_d_buf buf' dev, w)) →
  wp (buf_store off bs) Q (dev, w).
Proof.
  intros Hin HQ. unfold buf_store. apply wp_bind, wp_get_dev.
  apply wp_bind. eapply wp_lift_option; [by apply poke_Some|].
  apply wp_modify_dev. apply HQ; [done|]. by apply length_splice.
Qed.

Lemma slice_all n (src : list Z) : length src = n → slice 0 n src = src.
Proof. intros <-. unfold slice. by rewrite drop_0, firstn_all. Qed.

Lemma wp_buf_memcpy off src n (Q : unit → state → Prop) dev w :
  length src = n →
  off + n ≤ length (d_buf dev) →
  (∀ buf', buf' = splice off src (d_buf dev) →
           length buf' = length (d_buf dev) →
           Q tt (set_d_buf buf' dev, w)) →
  wp (buf_memcpy off src n) Q (dev, w).
Proof.
  intros Hn Hin HQ. unfold buf_memcpy. apply wp_bind.
  eapply wp_lift_option; [apply peek_Some; simpl; lia|].
  rewrite slice_all by done. apply wp_buf_store; [lia|done].
Qed.

(** The same through [ICMPv6BUF]; [b] is the offset of the packet. *)

Lemma wp_icmp_load cfg off n (Q : list Z → state → Prop) dev w b :
  b = NET_LL_HDRLEN cfg dev →
  b + off + n ≤ length (d_buf dev) →
  Q (slice (b + off) n (d_buf dev)) (dev, w) →
  wp (icmp_load cfg off n) Q (dev, w).
Proof.
  intros -> Hin HQ. unfold icmp_load. apply wp_bind, wp_get_dev.
  by apply wp_buf_load.
Qed.

Lemma wp_icmp_store cfg off bs (Q : unit → state → Prop) dev w b :
  b = NET_LL_HDRLEN cfg dev →
  b + off + length bs ≤ length (d_buf dev) →
  (∀ buf', buf' = splice (b + off) bs (d_buf dev) →
           length buf' = length (d_buf dev) →
           Q tt (set_d_buf buf' dev, w)) →
  wp (icmp_store cfg off bs) Q (dev, w).
Proof.
  intros -> Hin HQ. unfold icmp_store. apply wp_bind, wp_get_dev.
  by apply wp_buf_store.
Qed.

Lemma wp_icmp_memcpy cfg off src n (Q : unit → state → Prop) dev w b :
  b = NET_LL_HDRLEN cfg dev →
  length src = n →
  b + off + n ≤ length (d_buf dev) →
  (∀ buf', buf' = splice (b + off) src (d_buf dev) →
           length buf' = length (d_buf dev) →
           Q tt (set_d_buf buf' dev, w)) →
  wp (icmp_memcpy cfg off src n) Q (dev, w).
Proof.
  intros -> Hn Hin HQ. unfold icmp_memcpy. apply wp_bind, wp_get_dev.
  by apply wp_buf_memcpy.
Qed.

Lemma wp_icmp_load8 cfg off v (Q : Z → state → Prop) dev w b :
  b = NET_LL_HDRLEN cfg dev →
  b + off + 1 ≤ length (d_buf dev) →
  slice (b + off) 1 (d_buf dev) = [v] →
  Q v (dev, w) →
  wp (icmp_load8 cfg off) Q (dev, w).
Proof.
  intros Hb Hin Hv HQ. unfold icmp_load8. apply wp_bind.
  eapply wp_icmp_load; [done..|]. rewrite Hv. by apply wp_ret.
Qed.

Lemma slice_one off (buf : list Z) :
  off + 1 ≤ length buf → ∃ v, slice off 1 buf = [v].
Proof.
  intros Hin. pose proof (length_slice off 1 buf Hin) as Hlen.
  destruct (slice off 1 buf) as [|v [|]]; simplify_eq/=. by exists v.
Qed.

Lemma wp_devif_callback_execute flags chain (Q : Z → state → Prop) dev w :
  Q (chain dev flags).2
    ((chain dev flags).1, log_call (Call_devif_callback_execute flags) w) →
  wp (devif_callback_execute flags chain) Q (dev, w).
Proof. intros HQ. eexists _, _. split; [reflexivity|done]. Qed.

Lemma wp_icmpv6_chksum cfg c (Q : Z → state → Prop) dev w :
  icmpv6_chksum_of cfg dev = Some c →
  Q c (dev, w) →
  wp (icmpv6_chksum cfg) Q (dev, w).
Proof.
  intros Hc HQ. unfold icmpv6_chksum. apply wp_bind, wp_get_dev.
  by eapply wp_lift_option.
Qed.

Lemma wp_unit_result (m : M unit) (P : net_driver_s → world → Prop) s :
  wp m (λ _ s', P s'.1 s'.2) s →
  ∃ dev' w', m s = Some (tt, (dev', w')) ∧ P dev' w'.
Proof. intros ([] & [dev' w'] & Hm & HP). by exists dev', w'. Qed.

(** *** Symbolic execution

    [offs] unfolds the offsets for [lia]; [side] proves that an access lies
    in the array; [wp_step b Hb] runs one statement, [b] being the offset of
    the packet and [Hb : b = NET_LL_HDRLEN cfg dev]. *)

Lemma length_uint16_bytes cfg v : length (uint16_bytes cfg v) = 2.
Proof. unfold uint16_bytes. by destruct (CONFIG_ENDIAN_BIG cfg). Qed.

Ltac offs :=
  unfold off_len, off_srcipaddr, off_destipaddr, off_type, off_icode,
    off_icmpv6chksum, off_flags, off_reserved1, off_reserved2, off_reserved3,
    off_icmpv6data, off_options, off_eth_dest, off_eth_src, IFHWADDRLEN,
    ETHER_ADDR_LEN, ETH_HDRLEN, IPv6_HDRLEN in *.

Ltac dev_simpl :=
  cbn [d_buf d_mac d_ipv6addr d_len d_flags d_lltype d_llhdrlen
       set_d_buf set_d_flags set_d_len fst snd] in *.

Ltac side :=
  dev_simpl; offs;
  rewrite ?length_uint16_bytes;
  rewrite ?length_slice by lia;
  cbn [length]; lia.

Ltac wp_store_intro :=
  let buf := fresh "buf" in
  let Hbuf := fresh "Hbuf" in
  let Hlen := fresh "Hlen" in
  intros buf Hbuf Hlen; dev_simpl.

Ltac wp_step b Hb :=
  lazymatch goal with
  | |- wp (bind _ _) _ _ => apply wp_bind
  | |- wp (ret _) _ _ => apply wp_ret
  | |- wp get_dev _ _ => apply wp_get_dev
  | |- wp get_world _ _ => apply wp_get_world
  | |- wp (modify_dev _) _ _ => apply wp_modify_dev
  | |- wp (modify_world _) _ _ => apply wp_modify_world
  | |- wp (netstats _ _) _ _ => apply wp_netstats
  | |- wp (icmp_store8 _ _ _) _ _ => unfold icmp_store8
  | |- wp (icmp_store16 _ _ _) _ _ => unfold icmp_store16
  | |- wp (net_ipv6addr_copy_buf _ _ _) _ _ => unfold net_ipv6addr_copy_buf
  | |- wp (net_ipv6addr_copy _ _ _) _ _ => unfold net_ipv6addr_copy
  | |- wp (net_neighbor_add _ _ _) _ _ => unfold net_neighbor_add
  | |- wp (icmp_load8 _ _) _ _ =>
      eapply (wp_icmp_load8 _ _ _ _ _ _ b);
      [exact Hb | side | dev_simpl; eassumption |]
  | |- wp (icmp_load _ _ _) _ _ =>
      eapply (wp_icmp_load _ _ _ _ _ _ b); [exact Hb | side | dev_simpl]
  | |- wp (icmp_store _ _ _) _ _ =>
      eapply (wp_icmp_store _ _ _ _ _ _ b);
      [exact Hb | side | wp_store_intro]
  | |- wp (icmp_memcpy _ _ _ _) _ _ =>
      eapply (wp_icmp_memcpy _ _ _ _ _ _ _ b);
      [exact Hb | side | side | wp_store_intro]
  | |- wp (buf_load _ _) _ _ => eapply wp_buf_load; [side | dev_simpl]
  | |- wp (buf_store _ _) _ _ => eapply wp_buf_store; [side | wp_store_intro]
  | |- wp (buf_memcpy _ _ _) _ _ =>
      eapply wp_buf_memcpy; [side | side | wp_store_intro]
  | |- wp (devif_callback_execute _ _) _ _ => apply wp_devif_callback_execute
  end.

Ltac use_stat :=
  repeat match goal with
         | H : CONFIG_NET_STATISTICS ?cfg = _
           |- context [CONFIG_NET_STATISTICS ?cfg] => rewrite H
         end.

Ltac wp_steps b Hb := repeat (wp_step b Hb; cbv beta; use_stat).

Ltac wp_start b Hb :=
  match goal with
  | |- context [icmpv6_input ?cfg (?dev, _)] =>
      unfold icmp_field in *;
      remember (NET_LL_HDRLEN cfg dev) as b eqn:Hb;
      apply wp_unit_result; unfold icmpv6_input
  end.

Lemma Zeqb_ne (x y : Z) : x ≠ y → (x =? y)%Z = false.
Proof. apply Z.eqb_neq. Qed.

(** *** More on buffers *)

Lemma splice_splice_same off bs bs' buf :
  length bs = length bs' →
  off + length bs ≤ length buf →
  splice off bs (splice off bs' buf) = splice off bs buf.
Proof.
  intros Hlen Hin. apply list_eq. intros i.
  rewrite !splice_lookup by (rewrite ?length_splice; lia).
  case_decide; [done|]. rewrite decide_False by lia. done.
Qed.

Lemma drop_splice_ne d off bs buf :
  off + length bs ≤ length buf →
  off + length bs ≤ d →
  drop d (splice off bs buf) = drop d buf.
Proof.
  intros Hin Hd. apply list_eq. intros i.
  rewrite !lookup_drop, splice_lookup by done.
  by rewrite decide_False by lia.
Qed.

Lemma slice_splice_mid o n off bs buf :
  o ≤ off → off + length bs ≤ o + n → o + n ≤ length buf →
  slice o n (splice off bs buf) =
    slice o (off - o) buf ++ bs
    ++ slice (off + length bs) (o + n - (off + length bs)) buf.
Proof.
  intros Ho Hn Hin. apply list_eq. intros i.
  rewrite slice_lookup, splice_lookup by lia.
  destruct (decide (i < off - o)) as [Hi|Hi].
  { rewrite lookup_app_l by (rewrite length_slice; lia).
    rewrite slice_lookup. repeat case_decide; done || lia. }
  rewrite lookup_app_r by (rewrite length_slice; lia).
  rewrite length_slice by lia.
  destruct (decide (i - (off - o) < length bs)) as [Hj|Hj].
  { rewrite lookup_app_l by lia.
    repeat case_decide; try lia. f_equal. lia. }
  rewrite lookup_app_r by lia. rewrite slice_lookup.
  repeat case_decide; try done; try lia. f_equal. lia.
Qed.

Lemma Forall_slice (P : Z → Prop) off n buf :
  Forall P buf → Forall P (slice off n buf).
Proof. intros. unfold slice. by apply Forall_take, Forall_drop. Qed.

Lemma Forall_splice (P : Z → Prop) off bs buf :
  Forall P bs → Forall P buf → Forall P (splice off bs buf).
Proof.
  intros. unfold splice.
  repeat apply Forall_app_2; [by apply Forall_take|done|by apply Forall_drop].
Qed.

(** *** One's-complement sums *)

Section checksum.
Local Open Scope Z_scope.

Lemma pairs_ind (P : list Z → Prop) :
  P [] → (∀ x, P [x]) → (∀ x y l, P l → P (x :: y :: l)) → ∀ l, P l.
Proof.
  intros Hnil Hone Hstep l.
  cut (P l ∧ ∀ x, P (x :: l)); [tauto|].
  induction l as [|y l [IH1 IH2]]; split; auto.
Qed.

Lemma words_app bs1 bs2 :
  Nat.Even (length bs1) → words (bs1 ++ bs2) = words bs1 ++ words bs2.
Proof.
  induction bs1 as [|x|x y l IH] using pairs_ind; intros Hev.
  - done.
  - destruct Hev as [k Hk]. simpl in Hk. lia.
  - simpl. f_equal. apply IH. destruct Hev as [k Hk]. simpl in Hk.
    exists (k - 1)%nat. lia.
Qed.

Lemma words_is_word bs : Forall is_byte bs → Forall is_word (words bs).
Proof.
  induction bs as [|x|x y l IH] using pairs_ind; intros Hb; simpl.
  - constructor.
  - apply Forall_cons_1 in Hb as [Hx _]. constructor; [|constructor].
    unfold is_byte, is_word in *. lia.
  - apply Forall_cons_1 in Hb as [Hx Hb].
    apply Forall_cons_1 in Hb as [Hy Hb].
    constructor; [|by apply IH]. unfold is_byte, is_word in *. lia.
Qed.

Lemma sumZ_app ws1 ws2 : sumZ (ws1 ++ ws2) = sumZ ws1 + sumZ ws2.
Proof. induction ws1 as [|w ws1 IH]; simpl; lia. Qed.

Lemma sumZ_cons w ws : sumZ (w :: ws) = w + sumZ ws.
Proof. done. Qed.

Lemma sumZ_nonneg ws : Forall is_word ws → 0 ≤ sumZ ws.
Proof.
  induction 1 as [|w ws Hw _ IH]; simpl; [done|]. unfold is_word in Hw. lia.
Qed.

Lemma ocadd_spec a w :
  0 ≤ a ≤ 65535 → is_word w →
  0 ≤ ocadd a w ≤ 65535 ∧
  (ocadd a w = a + w ∨ ocadd a w = a + w - 65535 ∧ 0 < ocadd a w).
Proof.
  unfold is_word, ocadd. intros Ha Hw. cbv zeta.
  destruct (Z.ltb_spec 65535 (a + w)); lia.
Qed.

Lemma fold_ocadd_spec ws :
  Forall is_word ws → ∀ acc, 0 ≤ acc ≤ 65535 →
  let r := fold_left ocadd ws acc in
  0 ≤ r ≤ 65535
  ∧ (∃ q, r = acc + sumZ ws - 65535 * q)
  ∧ (r = 0 → acc + sumZ ws = 0).
Proof.
  induction 1 as [|w ws Hw Hws IH]; intros acc Hacc;
    cbv zeta; cbn [fold_left]; rewrite ?sumZ_cons.
  - change (sumZ []) with 0. split; [done|]. split; [exists 0; lia|lia].
  - destruct (ocadd_spec acc w Hacc Hw) as [Hr Hcase].
    destruct (IH _ Hr) as (Hr' & [q Hq] & Hz).
    pose proof (sumZ_nonneg ws Hws).
    split; [done|]. split.
    + destruct Hcase as [E|[E _]]; rewrite E in *;
        [exists q|exists (q + 1)]; lia.
    + intros H0. specialize (Hz H0). lia.
Qed.

Lemma ocsum_fixup pre post :
  Forall is_byte pre → Forall is_byte post →
  Nat.Even (length pre) → 0 < sumZ (words pre) →
  let r0 := ocsum (words (pre ++ [0; 0] ++ post)) in
  let k := 65535 - r0 in
  0 ≤ r0 ≤ 65535 ∧
  ocsum (words (pre ++ [k / 256; k mod 256] ++ post)) = 65535.
Proof.
  intros Hpre Hpost Hev Hpos r0 k.
  pose proof (words_is_word _ Hpre) as Hwpre.
  pose proof (words_is_word _ Hpost) as Hwpost.
  pose proof (sumZ_nonneg _ Hwpost) as Hnn.
  assert (Hw : ∀ w, is_word w → Forall is_word (words pre ++ w :: words post)).
  { intros w Hw. apply Forall_app_2; [done|by constructor]. }
  assert (H00 : 0 ≤ 0 ≤ 65535) by lia.
  destruct (fold_ocadd_spec _ (Hw 0 H00) 0 H00) as (Hr0 & [q0 Hq0] & _).
  cbv zeta in *.
  assert (Er0 : r0 = fold_left ocadd (words pre ++ 0 :: words post) 0).
  { subst r0. unfold ocsum. by rewrite words_app. }
  rewrite <- Er0 in Hr0, Hq0. rewrite sumZ_app, sumZ_cons in Hq0.
  split; [done|].
  assert (Hk : is_word k) by (unfold is_word; lia).
  destruct (fold_ocadd_spec _ (Hw k Hk) 0 H00) as (Hr & [q Hq] & Hz).
  unfold ocsum. rewrite words_app by done. cbn [words app].
  replace (k / 256 * 256 + k mod 256) with k
    by (rewrite (Z.div_mod k 256) at 1; lia).
  rewrite sumZ_app, sumZ_cons in Hq, Hz. lia.
Qed.

Lemma chksum_field_bytes cfg r :
  0 ≤ r ≤ 65535 →
  uint16_bytes cfg (lnot16 (htons cfg r))
  = [(65535 - r) / 256; (65535 - r) mod 256].
Proof.
  intros Hr. unfold uint16_bytes, lnot16, htons, Z.lnot.
  change (2 ^ 16) with 65536.
  destruct (CONFIG_ENDIAN_BIG cfg); f_equal; [|f_equal| |f_equal];
    Z.div_mod_to_equations; lia.
Qed.
End checksum.

(** *** The checksum of a rewritten message *)

Lemma uint16_bytes_0 cfg : uint16_bytes cfg 0 = [0; 0]%Z.
Proof. unfold uint16_bytes. by destruct (CONFIG_ENDIAN_BIG cfg). Qed.

Lemma chksum_data_eq cfg dev b :
  b = NET_LL_HDRLEN cfg dev →
  b + 40 + Z.to_nat (icmpv6_len (slice (b + 4) 2 (d_buf dev))) ≤ length (d_buf dev) →
  chksum_data cfg dev =
    Some (slice (b + 8) 32 (d_buf dev) ++ [0; 0]%Z
          ++ slice (b + 4) 2 (d_buf dev) ++ [0; 0; 0; IP_PROTO_ICMP6]%Z
          ++ slice (b + 40) (Z.to_nat (icmpv6_len (slice (b + 4) 2 (d_buf dev))))
               (d_buf dev)).
Proof.
  intros -> Hin. unfold chksum_data. offs.
  rewrite (peek_Some (_ + 4) 2) by lia. cbn [mbind option_bind].
  rewrite (peek_Some (_ + 8) 32) by lia. cbn [mbind option_bind].
  rewrite peek_Some by lia. done.
Qed.

Lemma chksum_roundtrip cfg dev b n :
  b = NET_LL_HDRLEN cfg dev →
  n = icmp_paylen cfg dev →
  4 ≤ n →
  b + 40 + n ≤ length (d_buf dev) →
  Forall is_byte (d_buf dev) →
  let dev0 := set_d_buf (splice (b + 42) (uint16_bytes cfg 0) (d_buf dev)) dev in
  ∃ c, icmpv6_chksum_of cfg dev0 = Some c ∧
       icmpv6_chksum_valid cfg
         (set_d_buf (splice (b + 42) (uint16_bytes cfg (lnot16 c)) (d_buf dev0)) dev0).
Proof.
  intros Hb Hn Hn4 Hin Hbytes dev0.
  unfold icmp_paylen, icmp_field in Hn. rewrite <- Hb in Hn. offs.
  set (buf := d_buf dev) in *.
  set (pre := slice (b + 8) 32 buf ++ [0; 0]%Z ++ slice (b + 4) 2 buf
              ++ [0; 0; 0; IP_PROTO_ICMP6]%Z ++ slice (b + 40) 2 buf).
  set (post := slice (b + 44) (n - 4) buf).
  assert (Hdata : ∀ xy, length xy = 2 →
    chksum_data cfg (set_d_buf (splice (b + 42) xy buf) dev)
    = Some (pre ++ xy ++ post)).
  { intros xy Hxy.
    rewrite (chksum_data_eq _ _ b) by
      (try done; dev_simpl; rewrite length_splice, slice_splice_ne by lia; lia).
    dev_simpl. rewrite !slice_splice_ne by lia. rewrite <- Hn.
    rewrite slice_splice_mid by lia. rewrite Hxy.
    replace (b + 42 - (b + 40)) with 2 by lia.
    replace (b + 42 + 2) with (b + 44) by lia.
    replace (b + 40 + n - (b + 44)) with (n - 4) by lia.
    f_equal. subst pre post. by rewrite <- !app_assoc. }
  assert (Hpre : Forall is_byte pre).
  { subst pre. repeat first
      [ apply Forall_app_2 | by apply Forall_slice
      | apply Forall_cons_2; [unfold is_byte, IP_PROTO_ICMP6; lia|]
      | apply Forall_nil_2 ]. }
  assert (Hpost : Forall is_byte post) by by apply Forall_slice.
  assert (Hev : Nat.Even (length pre)).
  { exists 21. subst pre. rewrite !length_app, !length_slice by lia. done. }
  assert (Hpos : (0 < sumZ (words pre))%Z).
  { subst pre.
    rewrite (app_assoc _ [0; 0]%Z), (app_assoc _ (slice (b + 4) 2 buf)).
    rewrite words_app.
    2:{ exists 18. rewrite !length_app, !length_slice by lia. done. }
    rewrite sumZ_app. cbn [app words]. rewrite !sumZ_cons.
    match goal with |- (0 < sumZ ?a + (_ + (_ + sumZ ?c)))%Z =>
      assert (0 ≤ sumZ a)%Z; [|assert (0 ≤ sumZ c)%Z] end.
    - apply sumZ_nonneg, words_is_word.
      repeat first [ apply Forall_app_2 | by apply Forall_slice
                   | apply Forall_cons_2; [unfold is_byte; lia|]
                   | apply Forall_nil_2 ].
    - apply sumZ_nonneg, words_is_word. by apply Forall_slice.
    - unfold IP_PROTO_ICMP6. lia. }
  destruct (ocsum_fixup pre post Hpre Hpost Hev Hpos) as [Hr0 Hfix].
  cbv zeta in Hr0, Hfix.
  exists (htons cfg (ocsum (words (pre ++ [0; 0]%Z ++ post)))). split.
  - unfold icmpv6_chksum_of, dev0. rewrite uint16_bytes_0.
    by rewrite Hdata.
  - unfold icmpv6_chksum_valid.
    match goal with |- context [uint16_bytes cfg (lnot16 ?c)] =>
      change (chksum_data cfg _) with
        (chksum_data cfg
           (set_d_buf (splice (b + 42) (uint16_bytes cfg (lnot16 c))
                         (splice (b + 42) (uint16_bytes cfg 0) buf)) dev))
    end.
    rewrite splice_splice_same
      by (rewrite ?length_uint16_bytes; fold buf; lia).
    rewrite Hdata by apply length_uint16_bytes.
    rewrite chksum_field_bytes by done.
    cbn [fmap option_fmap option_map compose]. by rewrite Hfix.
Qed.

Lemma slice_written x o n off bs buf :
  x = splice off bs buf → off + length bs ≤ length buf →
  o = off → n = length bs →
  slice o n x = bs.
Proof. intros -> ? -> ->. by apply slice_splice_eq. Qed.

Lemma slice_kept x o n off bs buf :
  x = splice off bs buf → off + length bs ≤ length buf →
  o + n ≤ off ∨ off + length bs ≤ o →
  slice o n x = slice o n buf.
Proof. intros -> ? ?. by apply slice_splice_ne. Qed.

Lemma drop_kept x d off bs buf :
  x = splice off bs buf → off + length bs ≤ length buf →
  off + length bs ≤ d →
  drop d x = drop d buf.
Proof. intros -> ? ?. by apply drop_splice_ne. Qed.

(** [chase] follows a field of the final buffer back through the writes. *)
Ltac chase :=
  repeat match goal with
         | H : ?x = splice ?off ?bs ?y |- context [slice ?o ?n ?x] =>
             first [ rewrite (slice_kept x o n off bs y H) by side
                   | rewrite (slice_written x o n off bs y H) by side ]
         | H : ?x = splice ?off ?bs ?y |- context [drop ?d ?x] =>
             rewrite (drop_kept x d off bs y H) by side
         end.

Lemma icmpv6_chksum_of_Some cfg dev b :
  b = NET_LL_HDRLEN cfg dev →
  b + 40 + Z.to_nat (icmpv6_len (slice (b + 4) 2 (d_buf dev))) ≤ length (d_buf dev) →
  ∃ c, icmpv6_chksum_of cfg dev = Some c.
Proof.
  intros Hb Hin. unfold icmpv6_chksum_of.
  rewrite (chksum_data_eq cfg dev b Hb Hin). by eexists.
Qed.

(** Runs [icmpv6_chksum] on the current state; [n] is the payload length
    with [Hn : n = Z.to_nat (icmpv6_len (slice (b + off_len) 2 (d_buf dev)))]. *)
Ltac wp_chksum b Hb Hn c Hc :=
  lazymatch goal with
  | |- wp (icmpv6_chksum ?cfg) _ (?d, _) =>
      destruct (icmpv6_chksum_of_Some cfg d b) as [c Hc];
      [ exact Hb
      | dev_simpl; offs; chase; rewrite <- Hn; lia
      | eapply wp_icmpv6_chksum; [exact Hc|]; cbv beta ]
  end.

Lemma slice_drop b o n (buf : list Z) : slice (b + o) n buf = slice o n (drop b buf).
Proof. unfold slice. by rewrite drop_drop. Qed.

Lemma drop_splice_ge b o bs buf :
  b + o + length bs ≤ length buf →
  drop b (splice (b + o) bs buf) = splice o bs (drop b buf).
Proof.
  intros Hin. apply list_eq. intros i.
  rewrite lookup_drop, !splice_lookup by (rewrite ?length_drop; lia).
  repeat case_decide; try lia.
  - f_equal. lia.
  - by rewrite lookup_drop.
Qed.

Lemma chksum_data_packet cfg d1 d2 b :
  b = NET_LL_HDRLEN cfg d1 → b = NET_LL_HDRLEN cfg d2 →
  length (d_buf d1) = length (d_buf d2) →
  drop b (d_buf d1) = drop b (d_buf d2) →
  chksum_data cfg d1 = chksum_data cfg d2.
Proof.
  intros Hb1 Hb2 Hlen Hdrop. unfold chksum_data, peek. cbv zeta.
  rewrite <- Hb1, <- Hb2, Hlen.
  repeat case_decide; cbn [mbind option_bind]; try done.
  by rewrite !slice_drop, Hdrop.
Qed.

Lemma chksum_zeroed_data cfg devF dev9 b c buf8 :
  b = NET_LL_HDRLEN cfg devF → b = NET_LL_HDRLEN cfg dev9 →
  b + 44 ≤ length buf8 →
  d_buf dev9 = splice (b + 42) (uint16_bytes cfg 0) buf8 →
  length (d_buf devF) = length buf8 →
  drop b (d_buf devF)
  = drop b (splice (b + 42) (uint16_bytes cfg (lnot16 c)) (d_buf dev9)) →
  chksum_data cfg (chksum_zeroed cfg devF) = chksum_data cfg dev9.
Proof.
  intros HbF Hb9 Hin H9 HlenF Hdrop.
  pose proof (length_uint16_bytes cfg 0) as Hz.
  pose proof (length_uint16_bytes cfg (lnot16 c)) as Hcb.
  assert (Hlen9 : length (d_buf dev9) = length buf8)
    by (rewrite H9, length_splice; lia).
  apply (chksum_data_packet _ _ _ b).
  - exact HbF.
  - exact Hb9.
  - unfold chksum_zeroed. dev_simpl. rewrite length_splice; offs; lia.
  - unfold chksum_zeroed. dev_simpl. rewrite <- HbF. offs.
    rewrite drop_splice_ge by lia. rewrite Hdrop.
    rewrite drop_splice_ge by lia.
    rewrite splice_splice_same by (rewrite ?length_drop; lia).
    rewrite H9.
    rewrite drop_splice_ge by lia.
    by rewrite splice_splice_same by (rewrite ?length_drop; lia).
Qed.

(** *** The two reply paths

    What the function does to a solicitation for the address of the node
    and to an echo request, in full; the claims below are read off. *)

Lemma solicit_path cfg dev w opt0 :
  device_ok cfg dev →
  payload_ok cfg dev →
  icmp_field cfg dev off_type 1 = [ICMPv6_NEIGHBOR_SOLICIT] →
  icmp_field cfg dev off_icmpv6data 16 = d_ipv6addr dev →
  icmp_field cfg dev off_options 1 = [opt0] →
  ∃ dev' w', icmpv6_input cfg (dev, w) = Some (tt, (dev', w')) ∧
    d_len dev' = d_len dev ∧
    NET_LL_HDRLEN cfg dev' = NET_LL_HDRLEN cfg dev ∧
    length (d_buf dev') = length (d_buf dev) ∧
    g_netstats w' = (if CONFIG_NET_STATISTICS cfg
                     then ip_sent_incr cfg (sent_incr cfg (recv_incr cfg (g_netstats w)))
                     else g_netstats w) ∧
    calls w' = calls w ++
      (if (opt0 =? ICMPv6_OPTION_SOURCE_LINK_ADDRESS)%Z
       then [Call_net_neighbor_add (icmp_field cfg dev off_srcipaddr 16)
               (icmp_field cfg dev (off_options + 2) IFHWADDRLEN)]
       else []) ∧
    icmp_field cfg dev' off_len 2 = icmp_field cfg dev off_len 2 ∧
    icmp_field cfg dev' off_srcipaddr 16 = d_ipv6addr dev ∧
    icmp_field cfg dev' off_destipaddr 16 = icmp_field cfg dev off_srcipaddr 16 ∧
    icmp_field cfg dev' off_type 1 = [ICMPv6_NEIGHBOR_ADVERTISE] ∧
    icmp_field cfg dev' off_flags 1 = [ICMPv6_FLAG_S] ∧
    icmp_field cfg dev' off_reserved1 1 = [0%Z] ∧
    icmp_field cfg dev' off_reserved2 1 = [0%Z] ∧
    icmp_field cfg dev' off_reserved3 1 = [0%Z] ∧
    icmp_field cfg dev' off_options 1 = [ICMPv6_OPTION_TARGET_LINK_ADDRESS] ∧
    icmp_field cfg dev' (off_options + 1) 1 = [1%Z] ∧
    icmp_field cfg dev' (off_options + 2) IFHWADDRLEN = d_mac dev ∧
    drop (NET_LL_HDRLEN cfg dev + off_options + 8) (d_buf dev')
    = drop (NET_LL_HDRLEN cfg dev + off_options + 8) (d_buf dev) ∧
    ∃ c, icmpv6_chksum_of cfg (chksum_zeroed cfg dev') = Some c ∧
         icmp_field cfg dev' off_icmpv6chksum 2 = uint16_bytes cfg (lnot16 c).
Proof.
  intros (Hip & Hmac & Hbuf & Heth) Hpay Htype Htgt Hopt.
  unfold payload_ok in Hpay.
  remember (icmp_paylen cfg dev) as n eqn:Hn.
  wp_start b Hb. unfold icmp_paylen, icmp_field in Hn. rewrite <- Hb in Hn.
  wp_steps b Hb. rewrite Z.eqb_refl. wp_steps b Hb.
  rewrite Htgt. unfold net_ipv6addr_cmp. rewrite bool_decide_true by done.
  wp_steps b Hb.
  assert (Hadd : ∀ Q dev1 w1,
    d_buf dev1 = d_buf dev → b = NET_LL_HDRLEN cfg dev1 →
    Q tt (dev1, if (opt0 =? ICMPv6_OPTION_SOURCE_LINK_ADDRESS)%Z
                then log_call (Call_net_neighbor_add
                                 (slice (b + off_srcipaddr) 16 (d_buf dev))
                                 (slice (b + (off_options + 2)) IFHWADDRLEN (d_buf dev))) w1
                else w1) →
    wp (if (opt0 =? ICMPv6_OPTION_SOURCE_LINK_ADDRESS)%Z
        then net_neighbor_add cfg off_srcipaddr (off_options + 2)
        else ret tt) Q (dev1, w1)).
  { intros Q dev1 w1 Hd1 Hb1 HQ. destruct (opt0 =? _)%Z.
    - unfold net_neighbor_add. apply wp_bind.
      eapply (wp_icmp_load _ _ _ _ _ _ b); [done|rewrite Hd1; side|].
      apply wp_bind.
      eapply (wp_icmp_load _ _ _ _ _ _ b); [done|rewrite Hd1; side|].
      apply wp_modify_world. by rewrite Hd1.
    - by apply wp_ret. }
  apply Hadd; [done|exact Hb|]. clear Hadd.
  wp_steps b Hb. wp_chksum b Hb Hn c Hc. wp_steps b Hb.
  assert (Hb14 : eth_rewrites cfg dev = true → b = 14) by exact Heth.
  unfold eth_rewrites in Hb14.
  destruct (CONFIG_NET_ETHERNET cfg);
    [destruct (negb _ || _); [specialize (Hb14 eq_refl)|]|];
    wp_steps b Hb;
    change (NET_LL_HDRLEN cfg _) with (NET_LL_HDRLEN cfg dev);
    rewrite <- Hb; dev_simpl.
  all: split; [done|]. 
  all: split; [done|].
  all: split; [lia|].
  all: split; [by destruct (CONFIG_NET_STATISTICS cfg), (opt0 =? _)%Z|].
  all: split;
    [by destruct (CONFIG_NET_STATISTICS cfg), (opt0 =? _)%Z;
       rewrite ?app_nil_r|].
  all: do 11 (split; [by chase|]).
  all: split; [by chase|].
  all: exists c; split; [|by chase].
  all: unfold icmpv6_chksum_of.
  all: match type of Hc with icmpv6_chksum_of _ ?d9 = _ =>
         rewrite (chksum_zeroed_data cfg _ d9 b c buf8) end;
       try exact Hc; try exact Hb; try (dev_simpl; offs; lia).
  all: dev_simpl; try exact Hbuf10.
  all: chase; by rewrite Hbuf11.
Qed.

Lemma echo_request_path cfg dev w :
  device_ok cfg dev →
  payload_ok cfg dev →
  icmp_field cfg dev off_type 1 = [ICMPv6_ECHO_REQUEST] →
  ∃ dev' w', icmpv6_input cfg (dev, w) = Some (tt, (dev', w')) ∧
    d_len dev' = d_len dev ∧
    NET_LL_HDRLEN cfg dev' = NET_LL_HDRLEN cfg dev ∧
    length (d_buf dev') = length (d_buf dev) ∧
    g_netstats w' = (if CONFIG_NET_STATISTICS cfg
                     then ip_sent_incr cfg (sent_incr cfg (recv_incr cfg (g_netstats w)))
                     else g_netstats w) ∧
    calls w' = calls w ∧
    icmp_field cfg dev' off_len 2 = icmp_field cfg dev off_len 2 ∧
    icmp_field cfg dev' off_srcipaddr 16 = d_ipv6addr dev ∧
    icmp_field cfg dev' off_destipaddr 16 = icmp_field cfg dev off_srcipaddr 16 ∧
    icmp_field cfg dev' off_type 1 = [ICMPv6_ECHO_REPLY] ∧
    icmp_field cfg dev' off_icode 1 = icmp_field cfg dev off_icode 1 ∧
    drop (NET_LL_HDRLEN cfg dev + off_flags) (d_buf dev')
    = drop (NET_LL_HDRLEN cfg dev + off_flags) (d_buf dev) ∧
    (∃ c, icmpv6_chksum_of cfg (chksum_zeroed cfg dev') = Some c ∧
          icmp_field cfg dev' off_icmpv6chksum 2 = uint16_bytes cfg (lnot16 c)) ∧
    (Forall is_byte (d_buf dev) → Forall is_byte (d_ipv6addr dev) →
     4 ≤ icmp_paylen cfg dev → icmpv6_chksum_valid cfg dev').
Proof.
  intros (Hip & Hmac & Hbuf & Heth) Hpay Htype.
  unfold payload_ok in Hpay.
  remember (icmp_paylen cfg dev) as n eqn:Hn.
  wp_start b Hb. unfold icmp_paylen, icmp_field in Hn. rewrite <- Hb in Hn.
  wp_steps b Hb.
  change (ICMPv6_ECHO_REQUEST =? ICMPv6_NEIGHBOR_SOLICIT)%Z with false.
  rewrite Z.eqb_refl.
  wp_steps b Hb. wp_chksum b Hb Hn c Hc. wp_steps b Hb.
  change (NET_LL_HDRLEN cfg _) with (NET_LL_HDRLEN cfg dev). rewrite <- Hb.
  dev_simpl.
  split; [done|]. split; [done|]. split; [lia|].
  split; [by destruct (CONFIG_NET_STATISTICS cfg)|].
  split; [by destruct (CONFIG_NET_STATISTICS cfg)|].
  do 6 (split; [by chase|]).
  split.
  { exists c. split; [|by chase]. unfold icmpv6_chksum_of.
    match type of Hc with icmpv6_chksum_of _ ?d9 = _ =>
      rewrite (chksum_zeroed_data cfg _ d9 b c buf1) end;
      try exact Hc; try exact Hb; try (dev_simpl; offs; lia).
    - exact Hbuf3.
    - dev_simpl. by rewrite Hbuf4. }
  intros Hbytes Hipb Hn4.
  match type of Hc with icmpv6_chksum_of _ (set_d_buf _ ?d2) = _ =>
    destruct (chksum_roundtrip cfg d2 b n) as (c' & Hc' & Hvalid)
  end.
  - exact Hb.
  - unfold icmp_paylen, icmp_field.
    change (NET_LL_HDRLEN cfg _) with (NET_LL_HDRLEN cfg dev). rewrite <- Hb.
    dev_simpl. by chase.
  - lia.
  - side.
  - dev_simpl. subst buf1 buf0 buf.
    repeat first [ apply Forall_splice | apply Forall_slice | done
                 | by repeat constructor ].
  - cbv zeta in Hc', Hvalid. subst buf2 buf3.
    assert (Some c' = Some c) as [= ->] by (etrans; [symmetry; exact Hc'|exact Hc]).
    exact Hvalid.
Qed.

Lemma slice_split o n1 n2 (buf : list Z) :
  o + n1 + n2 ≤ length buf →
  slice o (n1 + n2) buf = slice o n1 buf ++ slice (o + n1) n2 buf.
Proof.
  intros Hin. apply list_eq. intros i. rewrite slice_lookup.
  destruct (decide (i < n1)).
  - rewrite lookup_app_l by (rewrite length_slice; lia).
    rewrite slice_lookup. by rewrite !decide_True by lia.
  - rewrite lookup_app_r by (rewrite length_slice; lia).
    rewrite length_slice, slice_lookup by lia.
    repeat case_decide; try lia; [|done]. f_equal. lia.
Qed.

Lemma parse_single_tllao (mac : list Z) :
  length mac = 6 →
  parse_options 8 ([ICMPv6_OPTION_TARGET_LINK_ADDRESS; 1%Z] ++ mac)
  = Some [tllao mac].
Proof.
  intros Hlen.
  do 7 (destruct mac as [|? mac]; simplify_eq/=). done.
Qed.

(** *** Every invocation

    The function is defined on every device whose buffer array holds the
    packet; the rules of [wlp] follow it down every branch at once. *)

Lemma icmpv6_input_defined cfg dev w :
  device_ok cfg dev → payload_ok cfg dev →
  ∃ dev' w', icmpv6_input cfg (dev, w) = Some (tt, (dev', w')).
Proof.
  intros Hok Hpay.
  pose proof Hok as (Hip & Hmac & Hbuf & Heth).
  destruct (slice_one (NET_LL_HDRLEN cfg dev + off_type) (d_buf dev))
    as [t Htype]; [offs; lia|].
  destruct (decide (t = ICMPv6_NEIGHBOR_SOLICIT)) as [->|Hns].
  { destruct (decide (icmp_field cfg dev off_icmpv6data 16 = d_ipv6addr dev))
      as [Htgt|Htgt].
    - destruct (slice_one (NET_LL_HDRLEN cfg dev + off_options) (d_buf dev))
        as [opt0 Hopt]; [offs; lia|].
      destruct (solicit_path cfg dev w _ Hok Hpay Htype Htgt Hopt)
        as (dev' & w' & Hrun & _). by exists dev', w'.
    - cut (∃ dev' w', icmpv6_input cfg (dev, w) = Some (tt, (dev', w')) ∧ True).
      { intros (dev' & w' & Hrun & _). by exists dev', w'. }
      wp_start b Hb. wp_steps b Hb. rewrite Z.eqb_refl. wp_steps b Hb.
      unfold net_ipv6addr_cmp. rewrite bool_decide_false by done.
      wp_steps b Hb. done. }
  destruct (decide (t = ICMPv6_ECHO_REQUEST)) as [->|Hreq].
  { destruct (echo_request_path cfg dev w Hok Hpay Htype)
      as (dev' & w' & Hrun & _). by exists dev', w'. }
  cut (∃ dev' w', icmpv6_input cfg (dev, w) = Some (tt, (dev', w')) ∧ True).
  { intros (dev' & w' & Hrun & _). by exists dev', w'. }
  wp_start b Hb. wp_steps b Hb. rewrite !Zeqb_ne by done. wp_steps b Hb.
  destruct (_ && _ && _).
  - wp_steps b Hb. destruct (g_echocallback _); wp_steps b Hb.
    + destruct (_ =? _)%Z; wp_steps b Hb; done.
    + rewrite Z.eqb_refl. wp_steps b Hb. done.
  - wp_steps b Hb. done.
Qed.

Section wlp_rules.
Context {A B : Type}.

Lemma wlp_ret (a : A) (Q : A → state → Prop) s : Q a s → wlp (ret a) Q s.
Proof. intros HQ a' s' [= <- <-]. done. Qed.

Lemma wlp_bind (m : M A) (k : A → M B) (Q : B → state → Prop) s :
  wlp m (λ a s', wlp (k a) Q s') s → wlp (bind m k) Q s.
Proof.
  intros Hm b s'' Hrun. unfold bind in Hrun.
  destruct (m s) as [[a s']|] eqn:E; [|done]. by eapply Hm.
Qed.

Lemma wlp_fault (Q : A → state → Prop) s : wlp fault Q s.
Proof. by intros a s' ?. Qed.

Lemma wlp_lift_option (o : option A) (Q : A → state → Prop) s :
  (∀ a, o = Some a → Q a s) → wlp (lift_option o) Q s.
Proof.
  intros HQ a s' Hrun. unfold lift_option in Hrun.
  destruct o; simplify_eq. by apply HQ.
Qed.
End wlp_rules.

Lemma wlp_get_dev (Q : net_driver_s → state → Prop) dev w :
  Q dev (dev, w) → wlp get_dev Q (dev, w).
Proof. intros HQ a s' [= <- <-]. done. Qed.

Lemma wlp_get_world (Q : world → state → Prop) dev w :
  Q w (dev, w) → wlp get_world Q (dev, w).
Proof. intros HQ a s' [= <- <-]. done. Qed.

Lemma wlp_modify_dev f (Q : unit → state → Prop) dev w :
  Q tt (f dev, w) → wlp (modify_dev f) Q (dev, w).
Proof. intros HQ a s' [= <- <-]. done. Qed.

Lemma wlp_modify_world f (Q : unit → state → Prop) dev w :
  Q tt (dev, f w) → wlp (modify_world f) Q (dev, w).
Proof. intros HQ a s' [= <- <-]. done. Qed.

Lemma wlp_netstats cfg f (Q : unit → state → Prop) dev w :
  Q tt (dev, if CONFIG_NET_STATISTICS cfg
             then set_g_netstats (f (g_netstats w)) w else w) →
  wlp (netstats cfg f) Q (dev, w).
Proof.
  unfold netstats. destruct (CONFIG_NET_STATISTICS cfg); intros HQ.
  - by apply wlp_modify_world.
  - by apply wlp_ret.
Qed.

Lemma wlp_buf_load off n (Q : list Z → state → Prop) dev w :
  (∀ bs, bs = slice off n (d_buf dev) → Q bs (dev, w)) →
  wlp (buf_load off n) Q (dev, w).
Proof.
  intros HQ. unfold buf_load. apply wlp_bind, wlp_get_dev.
  apply wlp_lift_option. intros bs Hbs. apply HQ.
  unfold peek in Hbs. case_decide; by simplify_eq.
Qed.

Lemma wlp_buf_store off bs (Q : unit → state → Prop) dev w :
  (∀ buf', Q tt (set_d_buf buf' dev, w)) → wlp (buf_store off bs) Q (dev, w).
Proof.
  intros HQ. unfold buf_store. apply wlp_bind, wlp_get_dev.
  apply wlp_bind, wlp_lift_option. intros buf' _. by apply wlp_modify_dev.
Qed.

Lemma wlp_buf_memcpy off src n (Q : unit → state → Prop) dev w :
  (∀ buf', Q tt (set_d_buf buf' dev, w)) → wlp (buf_memcpy off src n) Q (dev, w).
Proof.
  intros HQ. unfold buf_memcpy. apply wlp_bind, wlp_lift_option. intros bs _.
  by apply wlp_buf_store.
Qed.

Lemma wlp_icmp_load cfg off n (Q : list Z → state → Prop) dev w :
  (∀ bs, bs = icmp_field cfg dev off n → Q bs (dev, w)) →
  wlp (icmp_load cfg off n) Q (dev, w).
Proof.
  intros HQ. unfold icmp_load. apply wlp_bind, wlp_get_dev.
  by apply wlp_buf_load.
Qed.

Lemma wlp_icmp_load8 cfg off (Q : Z → state → Prop) dev w :
  (∀ v, icmp_field cfg dev off 1 = [v] → Q v (dev, w)) →
  wlp (icmp_load8 cfg off) Q (dev, w).
Proof.
  intros HQ. unfold icmp_load8. apply wlp_bind, wlp_icmp_load.
  intros [|v [|]] Hbs; [apply wlp_fault| |apply wlp_fault].
  apply wlp_ret. by apply HQ.
Qed.

Lemma wlp_icmp_store cfg off bs (Q : unit → state → Prop) dev w :
  (∀ buf', Q tt (set_d_buf buf' dev, w)) → wlp (icmp_store cfg off bs) Q (dev, w).
Proof.
  intros HQ. unfold icmp_store. apply wlp_bind, wlp_get_dev.
  by apply wlp_buf_store.
Qed.

Lemma wlp_icmp_memcpy cfg off src n (Q : unit → state → Prop) dev w :
  (∀ buf', Q tt (set_d_buf buf' dev, w)) →
  wlp (icmp_memcpy cfg off src n) Q (dev, w).
Proof.
  intros HQ. unfold icmp_memcpy. apply wlp_bind, wlp_get_dev.
  by apply wlp_buf_memcpy.
Qed.

Lemma wlp_devif_callback_execute flags chain (Q : Z → state → Prop) dev w :
  Q (chain dev flags).2
    ((chain dev flags).1, log_call (Call_devif_callback_execute flags) w) →
  wlp (devif_callback_execute flags chain) Q (dev, w).
Proof. intros HQ a s' [= <- <-]. done. Qed.

Lemma wlp_icmpv6_chksum cfg (Q : Z → state → Prop) dev w :
  (∀ c, Q c (dev, w)) → wlp (icmpv6_chksum cfg) Q (dev, w).
Proof.
  intros HQ. unfold icmpv6_chksum. apply wlp_bind, wlp_get_dev.
  apply wlp_lift_option. by intros c _.
Qed.

Ltac wlp_step :=
  lazymatch goal with
  | |- wlp (bind _ _) _ _ => apply wlp_bind
  | |- wlp (ret _) _ _ => apply wlp_ret
  | |- wlp get_dev _ _ => apply wlp_get_dev
  | |- wlp get_world _ _ => apply wlp_get_world
  | |- wlp (modify_dev _) _ _ => apply wlp_modify_dev
  | |- wlp (modify_world _) _ _ => apply wlp_modify_world
  | |- wlp (netstats _ _) _ _ => apply wlp_netstats
  | |- wlp (icmp_store8 _ _ _) _ _ => unfold icmp_store8
  | |- wlp (icmp_store16 _ _ _) _ _ => unfold icmp_store16
  | |- wlp (net_ipv6addr_copy_buf _ _ _) _ _ => unfold net_ipv6addr_copy_buf
  | |- wlp (net_ipv6addr_copy _ _ _) _ _ => unfold net_ipv6addr_copy
  | |- wlp (net_neighbor_add _ _ _) _ _ => unfold net_neighbor_add
  | |- wlp (icmp_load8 _ _) _ _ => apply wlp_icmp_load8; intros ? ?
  | |- wlp (icmp_load _ _ _) _ _ => apply wlp_icmp_load; intros ? ?
  | |- wlp (icmp_store _ _ _) _ _ => apply wlp_icmp_store; intros ?
  | |- wlp (icmp_memcpy _ _ _ _) _ _ => apply wlp_icmp_memcpy; intros ?
  | |- wlp (buf_load _ _) _ _ => apply wlp_buf_load; intros ? ?
  | |- wlp (buf_store _ _) _ _ => apply wlp_buf_store; intros ?
  | |- wlp (buf_memcpy _ _ _) _ _ => apply wlp_buf_memcpy; intros ?
  | |- wlp (icmpv6_chksum _) _ _ => apply wlp_icmpv6_chksum; intros ?
  | |- wlp (devif_callback_execute _ _) _ _ => apply wlp_devif_callback_execute
  | |- wlp (if ?c then _ else _) _ _ => destruct c eqn:?
  | |- wlp (match ?o with Some _ => _ | None => _ end) _ _ => destruct o eqn:?
  end.

Ltac wlp_steps := repeat (wlp_step; cbv beta iota).

Lemma wlp_unit_result (m : M unit) (P : net_driver_s → world → Prop) s :
  wlp m (λ _ s', P s'.1 s'.2) s →
  ∀ dev' w', m s = Some (tt, (dev', w')) → P dev' w'.
Proof. intros Hm dev' w' Hrun. exact (Hm _ _ Hrun). Qed.

Lemma after_waiters_other cfg dev w v :
  icmp_field cfg dev off_type 1 = [v] → v ≠ ICMPv6_ECHO_REPLY →
  after_waiters cfg dev w = dev.
Proof.
  intros Hv Hne. unfold after_waiters.
  rewrite bool_decide_false, andb_false_r; [done|]. rewrite Hv. congruence.
Qed.

(** ** Part 3: the claims *)

(** *** Unsupported types *)

(** C8: a message whose type is none of Neighbor Solicitation (135), Echo
    Request (128) and Echo Reply (129) increments the type_error counter by
    one and the dropped counter by one and sets the length of the buffer to
    zero; no message is emitted: the sent counters, the buffer and the list
    of outgoing calls are as before. *)
Theorem unknown_type_is_dropped cfg dev w t :
  CONFIG_NET_STATISTICS cfg = true →
  device_ok cfg dev →
  icmp_field cfg dev off_type 1 = [t] →
  t ≠ ICMPv6_NEIGHBOR_SOLICIT → t ≠ ICMPv6_ECHO_REQUEST → t ≠ ICMPv6_ECHO_REPLY →
  ∃ dev' w', icmpv6_input cfg (dev, w) = Some (tt, (dev', w')) ∧
    icmpv6_typeerr (g_netstats w') = stat_incr cfg (icmpv6_typeerr (g_netstats w)) ∧
    icmpv6_drop (g_netstats w') = stat_incr cfg (icmpv6_drop (g_netstats w)) ∧
    d_len dev' = 0%Z ∧
    icmpv6_sent (g_netstats w') = icmpv6_sent (g_netstats w) ∧
    ip_sent (g_netstats w') = ip_sent (g_netstats w) ∧
    d_buf dev' = d_buf dev ∧
    calls w' = calls w.
Proof.
  intros Hstat (Hip & Hmac & Hbuf & Heth) Htype Hns Hreq Hrep.
  wp_start b Hb. wp_steps b Hb.
  rewrite !Zeqb_ne, andb_false_r by done. cbn [andb].
  wp_steps b Hb. done.
Qed.

(** The type of the example in the claim, 200, on a concrete packet. *)
Lemma unknown_type_is_dropped_witness :
  ∃ dev' w', icmpv6_input cfg_eth (dev_unknown, world0) = Some (tt, (dev', w')) ∧
    icmpv6_typeerr (g_netstats w') = 2%Z ∧
    icmpv6_drop (g_netstats w') = 4%Z ∧
    d_len dev' = 0%Z.
Proof.
  destruct (unknown_type_is_dropped cfg_eth dev_unknown world0 200)
    as (dev' & w' & Hrun & Hte & Hdrop & Hlen & _);
    [reflexivity | repeat split; vm_compute; lia | reflexivity | done..|].
  exists dev', w'. by rewrite Hrun, Hte, Hdrop, Hlen.
Defined.

(** *** Neighbor solicitations for another address *)

(** C6: a Neighbor Solicitation whose target address is not the address of
    the node leaves a buffer of length 0, increments the dropped counter,
    which becomes its old value plus one (modulo the range of the counter),
    and makes no call to the Neighbor Cache: the list of outgoing calls is
    as before. *)
Theorem solicit_for_other_is_dropped cfg dev w :
  CONFIG_NET_STATISTICS cfg = true →
  device_ok cfg dev →
  icmp_field cfg dev off_type 1 = [ICMPv6_NEIGHBOR_SOLICIT] →
  icmp_field cfg dev off_icmpv6data 16 ≠ d_ipv6addr dev →
  ∃ dev' w', icmpv6_input cfg (dev, w) = Some (tt, (dev', w')) ∧
    d_len dev' = 0%Z ∧
    icmpv6_drop (g_netstats w')
    = ((icmpv6_drop (g_netstats w) + 1) mod 2 ^ NET_STATS_BITS cfg)%Z ∧
    calls w' = calls w.
Proof.
  intros Hstat (Hip & Hmac & Hbuf & Heth) Htype Htgt.
  wp_start b Hb. wp_steps b Hb.
  rewrite Z.eqb_refl. wp_steps b Hb.
  unfold net_ipv6addr_cmp. rewrite bool_decide_false by done.
  wp_steps b Hb. repeat split; reflexivity.
Qed.

(** On [dev_solicit_other] the dropped counter goes from 3 to 4. *)
Lemma solicit_for_other_is_dropped_witness :
  ∃ dev' w',
    icmpv6_input cfg_eth (dev_solicit_other, world0) = Some (tt, (dev', w')) ∧
    d_len dev' = 0%Z ∧
    icmpv6_drop (g_netstats w') = 4%Z ∧
    calls w' = [].
Proof.
  apply (solicit_for_other_is_dropped cfg_eth dev_solicit_other world0);
    [reflexivity | repeat split; vm_compute; lia | reflexivity | by vm_compute].
Defined.

(** *** Echo replies *)

(** C4, as the code has it: an Echo Reply that arrives while no waiter is
    registered sets the length of the buffer to zero and increments the
    dropped counter by one; it leaves through the unsupported-type exit,
    so the type_error counter is incremented by one as well. *)
Theorem echo_reply_without_waiter cfg dev w :
  CONFIG_NET_STATISTICS cfg = true →
  device_ok cfg dev →
  icmp_field cfg dev off_type 1 = [ICMPv6_ECHO_REPLY] →
  g_echocallback w = None →
  ∃ dev' w', icmpv6_input cfg (dev, w) = Some (tt, (dev', w')) ∧
    d_len dev' = 0%Z ∧
    icmpv6_drop (g_netstats w') = stat_incr cfg (icmpv6_drop (g_netstats w)) ∧
    icmpv6_typeerr (g_netstats w') = stat_incr cfg (icmpv6_typeerr (g_netstats w)).
Proof.
  intros Hstat (Hip & Hmac & Hbuf & Heth) Htype Hnone.
  wp_start b Hb. wp_steps b Hb.
  change (ICMPv6_ECHO_REPLY =? ICMPv6_NEIGHBOR_SOLICIT)%Z with false.
  change (ICMPv6_ECHO_REPLY =? ICMPv6_ECHO_REQUEST)%Z with false.
  cbv iota. wp_steps b Hb.
  cbn [g_echocallback set_g_netstats]. rewrite Hnone.
  rewrite bool_decide_false, andb_false_r by (by intros [? ?]).
  wp_steps b Hb. done.
Qed.

Lemma echo_reply_without_waiter_witness :
  ∃ dev' w',
    icmpv6_input cfg_eth (dev_echo_reply, world0) = Some (tt, (dev', w')) ∧
    d_len dev' = 0%Z ∧
    icmpv6_drop (g_netstats w') = stat_incr cfg_eth (icmpv6_drop (g_netstats world0)) ∧
    icmpv6_typeerr (g_netstats w') = stat_incr cfg_eth (icmpv6_typeerr (g_netstats world0)).
Proof.
  apply (echo_reply_without_waiter cfg_eth dev_echo_reply world0);
    [reflexivity | repeat split; vm_compute; lia | reflexivity | reflexivity].
Defined.

(** C4 as stated fails: on the Echo Reply [dev_echo_reply] with no waiter
    registered the type_error counter goes from 1 to 2, it is not left
    unchanged. *)
Lemma echo_reply_without_waiter_counterexample :
  icmp_field cfg_eth dev_echo_reply off_type 1 = [ICMPv6_ECHO_REPLY] ∧
  g_echocallback world0 = None ∧
  ¬ ∃ dev' w',
      icmpv6_input cfg_eth (dev_echo_reply, world0) = Some (tt, (dev', w')) ∧
      d_len dev' = 0%Z ∧
      icmpv6_drop (g_netstats w') = stat_incr cfg_eth (icmpv6_drop (g_netstats world0)) ∧
      icmpv6_typeerr (g_netstats w') = icmpv6_typeerr (g_netstats world0).
Proof.
  split; [reflexivity|]. split; [reflexivity|].
  intros (dev' & w' & Hrun & _ & _ & Hte).
  vm_compute in Hrun. by simplify_eq.
Qed.

(** C7: an Echo Reply that arrives while a waiter is registered and is
    claimed by it (the chain returns flags other than the unclaimed
    ICMPv6_ECHOREPLY) runs the chain exactly once, with the unclaimed
    flags; the dropped counter is not incremented, and control reaches the
    statistics of the emitted replies: the icmpv6 sent and ip sent counters
    are incremented, each becoming its old value plus one (modulo the range
    of the counter), although nothing is written to the buffer, the device
    being left as the chain returned it. *)
Theorem echo_reply_claimed cfg dev w chain :
  CONFIG_NET_STATISTICS cfg = true →
  CONFIG_NET_ICMPv6v6_PING cfg = true →
  device_ok cfg dev →
  icmp_field cfg dev off_type 1 = [ICMPv6_ECHO_REPLY] →
  g_echocallback w = Some chain →
  let dev1 := set_d_flags (IFF_SET_IPv6 cfg (d_flags dev)) dev in
  (chain dev1 (ICMPv6_ECHOREPLY cfg)).2 ≠ ICMPv6_ECHOREPLY cfg →
  ∃ dev' w', icmpv6_input cfg (dev, w) = Some (tt, (dev', w')) ∧
    calls w' = calls w ++ [Call_devif_callback_execute (ICMPv6_ECHOREPLY cfg)] ∧
    icmpv6_drop (g_netstats w') = icmpv6_drop (g_netstats w) ∧
    icmpv6_typeerr (g_netstats w') = icmpv6_typeerr (g_netstats w) ∧
    icmpv6_sent (g_netstats w')
    = ((icmpv6_sent (g_netstats w) + 1) mod 2 ^ NET_STATS_BITS cfg)%Z ∧
    ip_sent (g_netstats w')
    = ((ip_sent (g_netstats w) + 1) mod 2 ^ NET_STATS_BITS cfg)%Z ∧
    dev' = (chain dev1 (ICMPv6_ECHOREPLY cfg)).1.
Proof.
  intros Hstat Hping (Hip & Hmac & Hbuf & Heth) Htype Hcb dev1 Hclaim.
  wp_start b Hb. wp_steps b Hb.
  change (ICMPv6_ECHO_REPLY =? ICMPv6_NEIGHBOR_SOLICIT)%Z with false.
  change (ICMPv6_ECHO_REPLY =? ICMPv6_ECHO_REQUEST)%Z with false.
  cbv iota. wp_steps b Hb.
  rewrite Hping, Z.eqb_refl. cbn [g_echocallback set_g_netstats andb].
  rewrite Hcb, bool_decide_true by done. wp_steps b Hb.
  fold dev1. rewrite Zeqb_ne by done. wp_steps b Hb.
  repeat split; reflexivity.
Qed.

(** On [dev_echo_reply] with the claiming waiter registered the chain is
    run once with the flags 1024, dropped stays 3, type_error stays 1, the
    icmpv6 sent counter goes from 5 to 6 and the ip sent counter from 9 to
    10. *)
Lemma echo_reply_claimed_witness :
  ∃ dev' w',
    icmpv6_input cfg_eth (dev_echo_reply, world_waiting) = Some (tt, (dev', w')) ∧
    calls w' = [Call_devif_callback_execute 1024] ∧
    icmpv6_drop (g_netstats w') = 3%Z ∧
    icmpv6_typeerr (g_netstats w') = 1%Z ∧
    icmpv6_sent (g_netstats w') = 6%Z ∧
    ip_sent (g_netstats w') = 10%Z ∧
    dev' = (claiming_waiter
              (set_d_flags (IFF_SET_IPv6 cfg_eth (d_flags dev_echo_reply)) dev_echo_reply)
              (ICMPv6_ECHOREPLY cfg_eth)).1.
Proof.
  apply (echo_reply_claimed cfg_eth dev_echo_reply world_waiting claiming_waiter);
    [reflexivity | reflexivity | repeat split; vm_compute; lia | reflexivity
    | reflexivity | by vm_compute].
Defined.

(** *** Neighbor solicitations for the address of the node *)

(** C2, as the code has it: a Neighbor Solicitation whose target is the
    address of the node and whose first option is a well-formed
    Source-Link-Layer-Address option makes exactly one call to the Neighbor
    Cache, with the source address of the packet and the six bytes behind
    the option header, and is rewritten in place to a Neighbor
    Advertisement: type Advertisement, flags byte equal to the Solicited
    flag, the three reserved bytes zero, destination the original source,
    source the address of the node, the first eight option bytes a
    Target-Link-Layer-Address option of length 1 with the hardware address
    of the node, the checksum field first zeroed and then set to the
    complement of the result of the checksum engine on that message.
    Neither the length of the payload nor what follows the first eight
    option bytes is touched, so that the option list of the advertisement
    is that single option when the solicitation carried eight bytes of
    options. *)
Theorem solicit_is_advertised cfg dev w :
  device_ok cfg dev →
  payload_ok cfg dev →
  icmp_field cfg dev off_type 1 = [ICMPv6_NEIGHBOR_SOLICIT] →
  icmp_field cfg dev off_icmpv6data 16 = d_ipv6addr dev →
  first_option_sllao cfg dev →
  ∃ dev' w', icmpv6_input cfg (dev, w) = Some (tt, (dev', w')) ∧
    calls w' = calls w ++
      [Call_net_neighbor_add (icmp_field cfg dev off_srcipaddr 16)
         (icmp_field cfg dev (off_options + 2) IFHWADDRLEN)] ∧
    icmp_field cfg dev' off_type 1 = [ICMPv6_NEIGHBOR_ADVERTISE] ∧
    icmp_field cfg dev' off_flags 1 = [ICMPv6_FLAG_S] ∧
    icmp_field cfg dev' off_reserved1 1 = [0%Z] ∧
    icmp_field cfg dev' off_reserved2 1 = [0%Z] ∧
    icmp_field cfg dev' off_reserved3 1 = [0%Z] ∧
    icmp_field cfg dev' off_destipaddr 16 = icmp_field cfg dev off_srcipaddr 16 ∧
    icmp_field cfg dev' off_srcipaddr 16 = d_ipv6addr dev ∧
    icmp_field cfg dev' off_options 8
    = [ICMPv6_OPTION_TARGET_LINK_ADDRESS; 1%Z] ++ d_mac dev ∧
    drop (NET_LL_HDRLEN cfg dev + off_options + 8) (d_buf dev')
    = drop (NET_LL_HDRLEN cfg dev + off_options + 8) (d_buf dev) ∧
    icmp_paylen cfg dev' = icmp_paylen cfg dev ∧
    d_len dev' = d_len dev ∧
    (icmp_paylen cfg dev = 32 →
     icmpv6_options cfg dev' = Some [tllao (d_mac dev)]) ∧
    ∃ c, icmpv6_chksum_of cfg (chksum_zeroed cfg dev') = Some c ∧
         icmp_field cfg dev' off_icmpv6chksum 2
         = uint16_bytes cfg (Z.lnot c mod 2 ^ 16)%Z.
Proof.
  intros Hok Hpay Htype Htgt [Hopt _].
  destruct (solicit_path cfg dev w _ Hok Hpay Htype Htgt Hopt)
    as (dev' & w' & Hrun & Hlen & Hll & Hblen & _ & Hcalls & Hplen & Hsrc
        & Hdst & Hty & Hfl & Hr1 & Hr2 & Hr3 & Ho0 & Ho1 & Ho2 & Hrest & Hck).
  destruct Hok as (Hip & Hmac & Hbuf & Heth).
  assert (Hopts : icmp_field cfg dev' off_options 8
                  = [ICMPv6_OPTION_TARGET_LINK_ADDRESS; 1%Z] ++ d_mac dev).
  { unfold icmp_field in *. rewrite Hll in *.
    change 8 with (1 + (1 + 6)).
    rewrite !slice_split by (offs; lia).
    replace (NET_LL_HDRLEN cfg dev + off_options + 1)
      with (NET_LL_HDRLEN cfg dev + (off_options + 1)) by lia.
    replace (NET_LL_HDRLEN cfg dev + (off_options + 1) + 1)
      with (NET_LL_HDRLEN cfg dev + (off_options + 2)) by lia.
    unfold IFHWADDRLEN in Ho2. by rewrite Ho0, Ho1, Ho2. }
  assert (Hpl : icmp_paylen cfg dev' = icmp_paylen cfg dev)
    by (unfold icmp_paylen; by rewrite Hplen).
  exists dev', w'. rewrite Z.eqb_refl in Hcalls.
  repeat (split; [done|]). split; [|done].
  intros H32. unfold icmpv6_options. rewrite Hpl, H32. cbn [decide_rel].
  rewrite decide_True by lia. rewrite peek_Some by (rewrite Hll; offs; lia).
  cbn [mbind option_bind]. change (32 - 24) with 8.
  unfold icmp_field in Hopts. rewrite Hopts.
  rewrite length_app, Hmac. by apply parse_single_tllao.
Qed.

Lemma solicit_is_advertised_witness :
  ∃ dev' w', icmpv6_input cfg_eth (dev_solicit, world0) = Some (tt, (dev', w')) ∧
    calls w' = [Call_net_neighbor_add addr_peer mac_peer] ∧
    icmpv6_options cfg_eth dev' = Some [tllao mac_own] ∧
    icmp_field cfg_eth dev' off_icmpv6chksum 2 = [56; 28]%Z.
Proof.
  destruct (solicit_is_advertised cfg_eth dev_solicit world0)
    as (dev' & w' & Hrun & Hcalls & _ & _ & _ & _ & _ & _ & _ & _ & _ & _ & _
        & Hopts & c & Hc & Hck).
  - repeat split; vm_compute; lia.
  - unfold payload_ok. vm_compute. lia.
  - reflexivity.
  - reflexivity.
  - split; [reflexivity|]. exists 1%Z. repeat split; vm_compute; congruence.
  - exists dev', w'.
    split; [exact Hrun|]. split; [exact Hcalls|].
    split; [exact (Hopts eq_refl)|].
    rewrite Hck. clear Hck Hopts Hcalls.
    pose proof Hrun as Hdev. vm_compute in Hdev.
    injection Hdev as Hdev _. rewrite <- Hdev in Hc. vm_compute in Hc.
    injection Hc as Hc. rewrite <- Hc. reflexivity.
Defined.

(** C2 as stated fails: the solicitation [dev_solicit_two_options] carries
    a nonce option behind its source link-layer address option; the
    advertisement that answers it keeps the announced length and the nonce,
    so its option list has two entries, not the single target link-layer
    address option. *)
Lemma solicit_is_advertised_counterexample :
  icmp_field cfg_eth dev_solicit_two_options off_type 1 = [ICMPv6_NEIGHBOR_SOLICIT] ∧
  icmp_field cfg_eth dev_solicit_two_options off_icmpv6data 16
  = d_ipv6addr dev_solicit_two_options ∧
  first_option_sllao cfg_eth dev_solicit_two_options ∧
  ¬ ∃ dev' w',
      icmpv6_input cfg_eth (dev_solicit_two_options, world0) = Some (tt, (dev', w')) ∧
      icmpv6_options cfg_eth dev' = Some [tllao (d_mac dev_solicit_two_options)].
Proof.
  split; [reflexivity|]. split; [reflexivity|]. split.
  { split; [reflexivity|]. exists 1%Z. repeat split; vm_compute; congruence. }
  intros (dev' & w' & Hrun & Hopts).
  vm_compute in Hrun. by simplify_eq.
Qed.

(** C1, as the code has it: a Neighbor Solicitation whose target is the
    address of the node is answered whatever length its first option
    announces, also one that reaches beyond the end of the buffer: the
    length byte of the option is not looked at and the declared length of
    the buffer is not compared with anything.  The length of the buffer is
    left as it was, the dropped counter is not incremented, the sent
    counters are, the message becomes an advertisement, and when the type
    byte of the option is Source-Link-Layer-Address the Neighbor Cache is
    called once with the six bytes that follow the option header in the
    buffer array, wherever the declared length ends. *)
Theorem solicit_option_length_unchecked cfg dev w opt0 :
  CONFIG_NET_STATISTICS cfg = true →
  device_ok cfg dev →
  payload_ok cfg dev →
  icmp_field cfg dev off_type 1 = [ICMPv6_NEIGHBOR_SOLICIT] →
  icmp_field cfg dev off_icmpv6data 16 = d_ipv6addr dev →
  icmp_field cfg dev off_options 1 = [opt0] →
  ∃ dev' w', icmpv6_input cfg (dev, w) = Some (tt, (dev', w')) ∧
    d_len dev' = d_len dev ∧
    icmpv6_drop (g_netstats w') = icmpv6_drop (g_netstats w) ∧
    icmpv6_sent (g_netstats w')
    = ((icmpv6_sent (g_netstats w) + 1) mod 2 ^ NET_STATS_BITS cfg)%Z ∧
    ip_sent (g_netstats w')
    = ((ip_sent (g_netstats w) + 1) mod 2 ^ NET_STATS_BITS cfg)%Z ∧
    icmp_field cfg dev' off_type 1 = [ICMPv6_NEIGHBOR_ADVERTISE] ∧
    calls w' = calls w ++
      (if (opt0 =? ICMPv6_OPTION_SOURCE_LINK_ADDRESS)%Z
       then [Call_net_neighbor_add (icmp_field cfg dev off_srcipaddr 16)
               (icmp_field cfg dev (off_options + 2) IFHWADDRLEN)]
       else []).
Proof.
  intros Hstat Hok Hpay Htype Htgt Hopt.
  destruct (solicit_path cfg dev w _ Hok Hpay Htype Htgt Hopt)
    as (dev' & w' & Hrun & Hlen & _ & _ & Hstats & Hcalls & _ & _ & _ & Hty & _).
  exists dev', w'. rewrite Hstat in Hstats. rewrite Hstats. done.
Qed.

Lemma solicit_option_length_unchecked_witness :
  ∃ dev' w',
    icmpv6_input cfg_eth (dev_solicit_truncated, world0)
    = Some (tt, (dev', w')) ∧
    d_len dev' = 66%Z ∧
    icmpv6_drop (g_netstats w') = 3%Z ∧
    icmpv6_sent (g_netstats w') = 6%Z ∧
    ip_sent (g_netstats w') = 10%Z ∧
    calls w' = [Call_net_neighbor_add addr_peer (replicate 6 170%Z)].
Proof.
  destruct (solicit_option_length_unchecked cfg_eth
              dev_solicit_truncated world0 1)
    as (dev' & w' & Hrun & Hlen & Hdrop & Hsent & Hipsent & _ & Hcalls).
  - reflexivity.
  - repeat split; vm_compute; lia.
  - unfold payload_ok. vm_compute. lia.
  - reflexivity.
  - reflexivity.
  - reflexivity.
  - exists dev', w'.
    split; [exact Hrun|]. split; [exact Hlen|]. split; [exact Hdrop|].
    split; [exact Hsent|]. split; [exact Hipsent|].
    exact Hcalls.
Defined.

(** C1 as stated fails: [dev_solicit_truncated] is a solicitation for the
    address of the node whose packet of 66 bytes ends two bytes into an
    option that announces eight.  It is not rejected: the Neighbor Cache is
    called, the length stays 66 and the dropped counter stays 3. *)
Lemma solicit_option_length_counterexample :
  icmp_field cfg_eth dev_solicit_truncated off_type 1 = [ICMPv6_NEIGHBOR_SOLICIT] ∧
  icmp_field cfg_eth dev_solicit_truncated off_icmpv6data 16
  = d_ipv6addr dev_solicit_truncated ∧
  first_option_overruns cfg_eth dev_solicit_truncated ∧
  ¬ ∃ dev' w',
      icmpv6_input cfg_eth (dev_solicit_truncated, world0) = Some (tt, (dev', w')) ∧
      calls w' = calls world0 ∧
      d_len dev' = 0%Z ∧
      icmpv6_drop (g_netstats w') = stat_incr cfg_eth (icmpv6_drop (g_netstats world0)).
Proof.
  split; [reflexivity|]. split; [reflexivity|]. split.
  { exists 1%Z. split; [reflexivity|]. vm_compute. reflexivity. }
  intros (dev' & w' & Hrun & Hcalls & _).
  vm_compute in Hrun. by simplify_eq.
Qed.

(** What the Neighbor Cache is handed there are the six bytes that lie in
    the array behind the end of the packet, whatever they are. *)
Lemma solicit_truncated_reads_behind_packet m0 m1 m2 m3 m4 m5 rest :
  ∃ dev' w',
    icmpv6_input cfg_eth
      (dev_solicit_truncated_with (m0 :: m1 :: m2 :: m3 :: m4 :: m5 :: rest),
       world0)
    = Some (tt, (dev', w')) ∧
    calls w' = [Call_net_neighbor_add addr_peer [m0; m1; m2; m3; m4; m5]].
Proof.
  set (dev := dev_solicit_truncated_with _).
  destruct (solicit_path cfg_eth dev world0 1)
    as (dev' & w' & Hrun & _ & _ & _ & _ & Hcalls & _).
  - repeat split; try done. by apply Nat.leb_le.
  - by apply Nat.leb_le.
  - reflexivity.
  - reflexivity.
  - reflexivity.
  - exists dev', w'. split; [exact Hrun|]. rewrite Hcalls. reflexivity.
Qed.

(** *** Echo requests *)

(** C3: every Echo Request, whatever its identifier, sequence number and
    payload, is processed with no check beyond the type: nothing is
    dropped and no error counted, and the buffer is rewritten in place to
    an Echo Reply; everything behind the checksum field, that is
    identifier, sequence number and payload, is as it was, the destination
    address is the original source address, the source address is the
    address of the node, and the checksum is recomputed so that the
    message validates: the one's-complement sum of the words of
    pseudo-header and message is all ones. *)
Theorem echo_request_is_answered cfg dev w :
  device_ok cfg dev →
  payload_ok cfg dev →
  Forall is_byte (d_buf dev) →
  Forall is_byte (d_ipv6addr dev) →
  icmp_field cfg dev off_type 1 = [ICMPv6_ECHO_REQUEST] →
  8 ≤ icmp_paylen cfg dev →
  ∃ dev' w', icmpv6_input cfg (dev, w) = Some (tt, (dev', w')) ∧
    d_len dev' = d_len dev ∧
    icmpv6_drop (g_netstats w') = icmpv6_drop (g_netstats w) ∧
    icmpv6_typeerr (g_netstats w') = icmpv6_typeerr (g_netstats w) ∧
    icmp_field cfg dev' off_type 1 = [ICMPv6_ECHO_REPLY] ∧
    drop (NET_LL_HDRLEN cfg dev + off_flags) (d_buf dev')
    = drop (NET_LL_HDRLEN cfg dev + off_flags) (d_buf dev) ∧
    icmp_field cfg dev' off_destipaddr 16 = icmp_field cfg dev off_srcipaddr 16 ∧
    icmp_field cfg dev' off_srcipaddr 16 = d_ipv6addr dev ∧
    icmpv6_chksum_valid cfg dev'.
Proof.
  intros Hok Hpay Hbytes Hipb Htype Hlen8.
  destruct (echo_request_path cfg dev w Hok Hpay Htype)
    as (dev' & w' & Hrun & Hlen & _ & _ & Hstats & _ & _ & Hsrc & Hdst & Hty
        & _ & Hrest & _ & Hvalid).
  exists dev', w'. rewrite Hstats.
  repeat (split; [done || by destruct (CONFIG_NET_STATISTICS cfg)|]).
  apply Hvalid; [done..|lia].
Qed.

Lemma echo_request_is_answered_witness :
  ∃ dev' w',
    icmpv6_input cfg_eth (dev_echo_request, world0) = Some (tt, (dev', w')) ∧
    icmp_field cfg_eth dev' off_type 1 = [ICMPv6_ECHO_REPLY] ∧
    icmpv6_chksum_valid cfg_eth dev'.
Proof.
  destruct (echo_request_is_answered cfg_eth dev_echo_request world0)
    as (dev' & w' & Hrun & _ & _ & _ & Hty & _ & _ & _ & Hvalid).
  - repeat split; vm_compute; lia.
  - unfold payload_ok. vm_compute. lia.
  - apply (bool_decide_unpack _). vm_compute. exact I.
  - apply (bool_decide_unpack _). vm_compute. exact I.
  - reflexivity.
  - vm_compute. lia.
  - exists dev', w'. split; [exact Hrun|]. split; [exact Hty|exact Hvalid].
Defined.

(** *** Addresses of the replies *)

(** C5, as the code has it: on both reply paths, Neighbor Advertisement and
    Echo Reply, the destination address of the emitted message is the
    source address of the inbound one and its source address is the
    configured address of the node, not the inbound destination; the two
    are equal exactly when the inbound message carried the address of the
    node as its source. *)
Theorem reply_addresses cfg dev w :
  device_ok cfg dev →
  payload_ok cfg dev →
  icmp_field cfg dev off_type 1 = [ICMPv6_NEIGHBOR_SOLICIT]
  ∧ icmp_field cfg dev off_icmpv6data 16 = d_ipv6addr dev
  ∨ icmp_field cfg dev off_type 1 = [ICMPv6_ECHO_REQUEST] →
  ∃ dev' w', icmpv6_input cfg (dev, w) = Some (tt, (dev', w')) ∧
    icmp_field cfg dev' off_srcipaddr 16 = d_ipv6addr dev ∧
    icmp_field cfg dev' off_destipaddr 16 = icmp_field cfg dev off_srcipaddr 16 ∧
    (icmp_field cfg dev' off_srcipaddr 16 = icmp_field cfg dev' off_destipaddr 16
     ↔ icmp_field cfg dev off_srcipaddr 16 = d_ipv6addr dev).
Proof.
  intros Hok Hpay [[Htype Htgt]|Htype].
  - destruct (slice_one (NET_LL_HDRLEN cfg dev + off_options) (d_buf dev))
      as [opt0 Hopt]; [destruct Hok as (_ & _ & ? & _); offs; lia|].
    destruct (solicit_path cfg dev w _ Hok Hpay Htype Htgt Hopt)
      as (dev' & w' & Hrun & _ & _ & _ & _ & _ & _ & Hsrc & Hdst & _).
    exists dev', w'. rewrite Hsrc, Hdst. by repeat split.
  - destruct (echo_request_path cfg dev w Hok Hpay Htype)
      as (dev' & w' & Hrun & _ & _ & _ & _ & _ & _ & Hsrc & Hdst & _).
    exists dev', w'. rewrite Hsrc, Hdst. by repeat split.
Qed.

Lemma reply_addresses_witness :
  ∃ dev' w',
    icmpv6_input cfg_eth (dev_echo_request, world0) = Some (tt, (dev', w')) ∧
    icmp_field cfg_eth dev' off_srcipaddr 16 = addr_own ∧
    icmp_field cfg_eth dev' off_destipaddr 16 = addr_peer.
Proof.
  destruct (reply_addresses cfg_eth dev_echo_request world0)
    as (dev' & w' & Hrun & Hsrc & Hdst & _).
  - repeat split; vm_compute; lia.
  - unfold payload_ok. vm_compute. lia.
  - right. reflexivity.
  - exists dev', w'. split; [exact Hrun|]. split; [exact Hsrc|exact Hdst].
Defined.

(** C5 as stated fails: [dev_echo_request_own_source] is an Echo Request
    sent to the all-nodes group with the address of the node as its source;
    source and destination of the inbound message differ, source and
    destination of the Echo Reply are both the address of the node. *)
Lemma reply_addresses_counterexample :
  icmp_field cfg_eth dev_echo_request_own_source off_type 1 = [ICMPv6_ECHO_REQUEST] ∧
  ¬ ∃ dev' w',
      icmpv6_input cfg_eth (dev_echo_request_own_source, world0)
      = Some (tt, (dev', w')) ∧
      (icmp_field cfg_eth dev' off_srcipaddr 16
       = icmp_field cfg_eth dev' off_destipaddr 16 →
       icmp_field cfg_eth dev_echo_request_own_source off_srcipaddr 16
       = icmp_field cfg_eth dev_echo_request_own_source off_destipaddr 16).
Proof.
  split; [reflexivity|].
  intros (dev' & w' & Hrun & Himp).
  vm_compute in Hrun. simplify_eq.
  specialize (Himp eq_refl). vm_compute in Himp. discriminate Himp.
Qed.

(** *** Every invocation *)

(** C9: every invocation, whatever the type of the message and whatever
    the outcome, increments the received counter by exactly one: the
    counter becomes its old value plus one modulo the range of the counter,
    which is the old value plus one wherever that fits.  The
    increment is the first statement of the function, in front of the
    classification: the function is that statement followed by a rest, and
    the rest, which loads the type and takes the paths, leaves the counter
    as it finds it, so that unsupported and malformed messages are counted
    like the others. *)
Theorem received_counted_once cfg dev w :
  CONFIG_NET_STATISTICS cfg = true →
  device_ok cfg dev →
  payload_ok cfg dev →
  (∃ dev' w', icmpv6_input cfg (dev, w) = Some (tt, (dev', w')) ∧
     icmpv6_recv (g_netstats w')
     = ((icmpv6_recv (g_netstats w) + 1) mod 2 ^ NET_STATS_BITS cfg)%Z ∧
     ((0 ≤ icmpv6_recv (g_netstats w) < 2 ^ NET_STATS_BITS cfg - 1)%Z →
      icmpv6_recv (g_netstats w') = (icmpv6_recv (g_netstats w) + 1)%Z)) ∧
  (∃ rest : M unit,
     icmpv6_input cfg = bind (netstats cfg (recv_incr cfg)) (λ _, rest) ∧
     ∀ dev1 w1 dev' w', rest (dev1, w1) = Some (tt, (dev', w')) →
       icmpv6_recv (g_netstats w') = icmpv6_recv (g_netstats w1)).
Proof.
  intros Hstat Hok Hpay.
  assert (Hrest : ∃ rest : M unit,
     icmpv6_input cfg = bind (netstats cfg (recv_incr cfg)) (λ _, rest) ∧
     ∀ dev1 w1 dev' w', rest (dev1, w1) = Some (tt, (dev', w')) →
       icmpv6_recv (g_netstats w') = icmpv6_recv (g_netstats w1)).
  { eexists. split; [reflexivity|]. intros dev1 w1.
    apply wlp_unit_result. wlp_steps; cbn; by rewrite ?Hstat. }
  split; [|exact Hrest].
  destruct Hrest as (rest & Heq & Hkeep).
  destruct (icmpv6_input_defined cfg dev w Hok Hpay) as (dev' & w' & Hrun).
  exists dev', w'. split; [done|].
  rewrite Heq in Hrun. unfold bind at 1, netstats in Hrun.
  rewrite Hstat in Hrun. cbn in Hrun.
  rewrite (Hkeep _ _ _ _ Hrun).
  cbn [g_netstats set_g_netstats icmpv6_recv recv_incr].
  unfold stat_incr. split; [reflexivity|].
  intros Hfit. apply Z.mod_small. lia.
Qed.

(** On the message of unsupported type [dev_unknown] the received counter
    goes from 7 to 8. *)
Lemma received_counted_once_witness :
  ∃ dev' w', icmpv6_input cfg_eth (dev_unknown, world0) = Some (tt, (dev', w')) ∧
    icmpv6_recv (g_netstats w') = 8%Z.
Proof.
  destruct (received_counted_once cfg_eth dev_unknown world0)
    as [(dev' & w' & Hrun & Hrecv & _) _].
  - reflexivity.
  - repeat split; vm_compute; lia.
  - unfold payload_ok. vm_compute. lia.
  - exists dev', w'. split; [exact Hrun|exact Hrecv].
Defined.

(** C10, as the code has it: [icmpv6_input] itself assigns one value only
    to the declared length of the buffer, zero, and it does so on every
    drop path: a solicitation for another address, a message of unsupported
    type, an Echo Reply that is not dispatched, and a dispatched Echo Reply
    that no waiter claims.  On the two paths that emit a reply, Neighbor
    Advertisement and Echo Reply, the length is exactly that of the inbound
    message.  The third path to the sent exit, an Echo Reply that a waiter
    claims, leaves the length as the chain of waiters returned it, which
    need be neither the inbound length nor zero. *)
Theorem length_unchanged_or_zero cfg dev w t :
  device_ok cfg dev →
  payload_ok cfg dev →
  icmp_field cfg dev off_type 1 = [t] →
  ∃ dev' w', icmpv6_input cfg (dev, w) = Some (tt, (dev', w')) ∧
    (d_len dev' = d_len (after_waiters cfg dev w) ∨ d_len dev' = 0%Z) ∧
    (t = ICMPv6_NEIGHBOR_SOLICIT →
     icmp_field cfg dev off_icmpv6data 16 = d_ipv6addr dev →
     d_len dev' = d_len dev) ∧
    (t = ICMPv6_ECHO_REQUEST → d_len dev' = d_len dev) ∧
    (t = ICMPv6_NEIGHBOR_SOLICIT →
     icmp_field cfg dev off_icmpv6data 16 ≠ d_ipv6addr dev →
     d_len dev' = 0%Z) ∧
    (t ≠ ICMPv6_NEIGHBOR_SOLICIT → t ≠ ICMPv6_ECHO_REQUEST →
     t ≠ ICMPv6_ECHO_REPLY →
     d_len dev' = 0%Z) ∧
    (t = ICMPv6_ECHO_REPLY →
     CONFIG_NET_ICMPv6v6_PING cfg = false ∨ g_echocallback w = None →
     d_len dev' = 0%Z) ∧
    (∀ chain, t = ICMPv6_ECHO_REPLY →
       CONFIG_NET_ICMPv6v6_PING cfg = true →
       g_echocallback w = Some chain →
       let r := chain (set_d_flags (IFF_SET_IPv6 cfg (d_flags dev)) dev)
                      (ICMPv6_ECHOREPLY cfg) in
       (r.2 = ICMPv6_ECHOREPLY cfg → d_len dev' = 0%Z) ∧
       (r.2 ≠ ICMPv6_ECHOREPLY cfg → d_len dev' = d_len r.1)).
Proof.
  intros Hok Hpay Htype.
  destruct (icmpv6_input_defined cfg dev w Hok Hpay) as (dev' & w' & Hrun).
  exists dev', w'. split; [done|]. split.
  - revert dev' w' Hrun. apply wlp_unit_result. unfold icmpv6_input.
    do 6 (wlp_step; cbv beta iota).
    assert (Hv : icmp_field cfg dev off_type 1 = [v]) by done.
    destruct (decide (v = ICMPv6_ECHO_REPLY)) as [->|Hne].
    2:{ rewrite (after_waiters_other cfg dev w v) by done.
        rewrite (Zeqb_ne v ICMPv6_ECHO_REPLY), andb_false_r by done.
        cbn [andb]. wlp_steps; cbn; auto. }
    change (ICMPv6_ECHO_REPLY =? ICMPv6_NEIGHBOR_SOLICIT)%Z with false.
    change (ICMPv6_ECHO_REPLY =? ICMPv6_ECHO_REQUEST)%Z with false.
    cbv iota. rewrite Z.eqb_refl, andb_true_r.
    unfold after_waiters. rewrite Hv, bool_decide_true, andb_true_r by done.
    do 3 (wlp_step; cbv beta iota).
    assert (Hcb : ∀ w0, g_echocallback
              (if CONFIG_NET_STATISTICS cfg
               then set_g_netstats (recv_incr cfg (g_netstats w)) w0 else w0)
            = g_echocallback w0)
      by (intros; by destruct (CONFIG_NET_STATISTICS cfg)).
    rewrite !Hcb.
    destruct (CONFIG_NET_ICMPv6v6_PING cfg), (g_echocallback w);
      cbn [andb]; rewrite ?bool_decide_true by done;
      rewrite ?bool_decide_false by (by intros [? ?]);
      wlp_steps; cbn; auto.
  - revert dev' w' Hrun. apply wlp_unit_result. unfold icmpv6_input.
    do 6 (wlp_step; cbv beta iota).
    assert (Hv : icmp_field cfg dev off_type 1 = [v]) by done.
    rewrite Htype in Hv. injection Hv as <-.
    wlp_steps.
    all: repeat match goal with
         | H : (_ =? _)%Z = true |- _ => apply Z.eqb_eq in H
         | H : (_ =? _)%Z = false |- _ => apply Z.eqb_neq in H
         | H : net_ipv6addr_cmp _ _ = true |- _ =>
             apply bool_decide_eq_true in H
         | H : net_ipv6addr_cmp _ _ = false |- _ =>
             apply bool_decide_eq_false in H
         | H : _ && _ = true |- _ => apply andb_prop in H; destruct H
         | H : bool_decide _ = true |- _ => apply bool_decide_eq_true in H
         end.
    all: destruct (CONFIG_NET_STATISTICS cfg);
      cbn [d_len set_d_len set_d_buf set_d_flags fst snd
           g_echocallback set_g_netstats] in *.
    all: repeat split; intros; simplify_eq; try done.
    all: destruct_or?; simplify_eq; try done; try congruence.
    all: match goal with
         | Hf : _ && _ && _ = false,
           Hp : CONFIG_NET_ICMPv6v6_PING _ = true,
           Hc : g_echocallback _ = Some _ |- _ =>
             rewrite Hp, Hc, Z.eqb_refl, bool_decide_true in Hf by done;
             discriminate Hf
         end.
Qed.

(** The solicitation for another address [dev_solicit_other] arrives with
    length 72 and leaves with length 0. *)
Lemma length_unchanged_or_zero_witness :
  ∃ dev' w',
    icmpv6_input cfg_eth (dev_solicit_other, world0) = Some (tt, (dev', w')) ∧
    d_len dev_solicit_other = 72%Z ∧
    d_len dev' = 0%Z.
Proof.
  destruct (length_unchanged_or_zero cfg_eth dev_solicit_other world0
              ICMPv6_NEIGHBOR_SOLICIT)
    as (dev' & w' & Hrun & _ & _ & _ & Hdrop & _).
  - repeat split; vm_compute; lia.
  - unfold payload_ok. vm_compute. lia.
  - reflexivity.
  - exists dev', w'. split; [exact Hrun|]. split; [reflexivity|].
    apply Hdrop; [reflexivity|by vm_compute].
Defined.

(** C10 as stated fails: the Echo Reply [dev_echo_reply] arrives with
    length 53 while [resizing_waiter] is registered; the waiter claims it
    and sets the length to 7, the function goes on to the sent exit and
    leaves the length at 7, which is neither the inbound length nor
    zero. *)
Lemma length_unchanged_or_zero_counterexample :
  icmp_field cfg_eth dev_echo_reply off_type 1 = [ICMPv6_ECHO_REPLY] ∧
  g_echocallback world_resizing = Some resizing_waiter ∧
  d_len dev_echo_reply = 53%Z ∧
  ¬ ∃ dev' w',
      icmpv6_input cfg_eth (dev_echo_reply, world_resizing) = Some (tt, (dev', w')) ∧
      (d_len dev' = d_len dev_echo_reply ∨ d_len dev' = 0%Z).
Proof.
  split; [reflexivity|]. split; [reflexivity|]. split; [reflexivity|].
  intros (dev' & w' & Hrun & Hlen).
  vm_compute in Hrun. injection Hrun as <- _.
  destruct Hlen as [Hlen|Hlen]; vm_compute in Hlen; discriminate Hlen.
Qed.

(** ** Part 4: further properties of [icmpv6_input] *)

(** *** What the two reply paths leave alone

    The same two runs as in [solicit_path] and [echo_request_path], read
    for the bytes in front of the addresses, for the Ethernet header and
    for the checksum of the advertisement. *)

Lemma solicit_path_frame cfg dev w :
  device_ok cfg dev →
  payload_ok cfg dev →
  icmp_field cfg dev off_type 1 = [ICMPv6_NEIGHBOR_SOLICIT] →
  icmp_field cfg dev off_icmpv6data 16 = d_ipv6addr dev →
  ∃ dev' w', icmpv6_input cfg (dev, w) = Some (tt, (dev', w')) ∧
    icmp_field cfg dev' 0 off_srcipaddr = icmp_field cfg dev 0 off_srcipaddr ∧
    icmp_field cfg dev' off_icode 1 = icmp_field cfg dev off_icode 1 ∧
    icmp_field cfg dev' off_icmpv6data 16 = d_ipv6addr dev ∧
    (if eth_rewrites cfg dev
     then slice off_eth_dest ETHER_ADDR_LEN (d_buf dev')
          = slice off_eth_src ETHER_ADDR_LEN (d_buf dev)
          ∧ slice off_eth_src ETHER_ADDR_LEN (d_buf dev') = d_mac dev
          ∧ slice (2 * ETHER_ADDR_LEN) (ETH_HDRLEN - 2 * ETHER_ADDR_LEN) (d_buf dev')
          = slice (2 * ETHER_ADDR_LEN) (ETH_HDRLEN - 2 * ETHER_ADDR_LEN) (d_buf dev)
     else take (NET_LL_HDRLEN cfg dev) (d_buf dev')
          = take (NET_LL_HDRLEN cfg dev) (d_buf dev)) ∧
    (Forall is_byte (d_buf dev) → Forall is_byte (d_ipv6addr dev) →
     Forall is_byte (d_mac dev) → 4 ≤ icmp_paylen cfg dev →
     icmpv6_chksum_valid cfg dev').
Proof.
  intros (Hip & Hmac & Hbuf & Heth) Hpay Htype Htgt.
  unfold payload_ok in Hpay.
  remember (icmp_paylen cfg dev) as n eqn:Hn.
  destruct (slice_one (NET_LL_HDRLEN cfg dev + off_options) (d_buf dev))
    as [opt0 Hopt]; [offs; lia|].
  wp_start b Hb. unfold icmp_paylen, icmp_field in Hn. rewrite <- Hb in Hn.
  wp_steps b Hb. rewrite Z.eqb_refl. wp_steps b Hb.
  rewrite Htgt. unfold net_ipv6addr_cmp. rewrite bool_decide_true by done.
  wp_steps b Hb.
  assert (Hadd : ∀ Q dev1 w1,
    d_buf dev1 = d_buf dev → b = NET_LL_HDRLEN cfg dev1 →
    (∀ w2, Q tt (dev1, w2)) →
    wp (if (opt0 =? ICMPv6_OPTION_SOURCE_LINK_ADDRESS)%Z
        then net_neighbor_add cfg off_srcipaddr (off_options + 2)
        else ret tt) Q (dev1, w1)).
  { intros Q dev1 w1 Hd1 Hb1 HQ. destruct (opt0 =? _)%Z.
    - unfold net_neighbor_add. apply wp_bind.
      eapply (wp_icmp_load _ _ _ _ _ _ b); [done|rewrite Hd1; side|].
      apply wp_bind.
      eapply (wp_icmp_load _ _ _ _ _ _ b); [done|rewrite Hd1; side|].
      apply wp_modify_world. apply HQ.
    - by apply wp_ret. }
  apply Hadd; [done|exact Hb|]. clear Hadd. intros w2.
  wp_steps b Hb. wp_chksum b Hb Hn c Hc. wp_steps b Hb.
  assert (Hb14 : eth_rewrites cfg dev = true → b = 14) by exact Heth.
  unfold eth_rewrites in *.
  destruct (CONFIG_NET_ETHERNET cfg);
    [destruct (negb _ || _); [specialize (Hb14 eq_refl)|]|];
    wp_steps b Hb;
    change (NET_LL_HDRLEN cfg _) with (NET_LL_HDRLEN cfg dev);
    rewrite <- Hb; dev_simpl; cbn [andb].
  all: do 3 (split; [by chase|]).
  all: split; [first [ by repeat split; chase
                     | change (take b ?l) with (slice 0 b l); by chase ]|].
  all: intros Hbytes Hipb Hmacb Hn4.
  1: match goal with
     | |- icmpv6_chksum_valid cfg (set_d_buf _ (set_d_buf _ ?d10)) =>
         unfold icmpv6_chksum_valid;
         rewrite (chksum_data_packet cfg _ d10 b);
         [ fold (icmpv6_chksum_valid cfg d10)
         | exact Hb | exact Hb | dev_simpl; lia | dev_simpl; by chase ]
     end.
  all: match type of Hc with icmpv6_chksum_of _ (set_d_buf _ ?d8) = _ =>
         destruct (chksum_roundtrip cfg d8 b n) as (c' & Hc' & Hvalid)
       end;
    [ exact Hb
    | unfold icmp_paylen, icmp_field;
      change (NET_LL_HDRLEN cfg _) with (NET_LL_HDRLEN cfg dev);
      rewrite <- Hb; dev_simpl; by chase
    | lia
    | side
    | dev_simpl; subst buf8 buf7 buf6 buf5 buf4 buf3 buf2 buf1 buf0 buf;
      repeat first [ apply Forall_splice | apply Forall_slice | done
                   | by repeat constructor ]
    | cbv zeta in Hc', Hvalid; subst buf9 buf10;
      assert (Some c' = Some c) as [= ->]
        by (etrans; [symmetry; exact Hc'|exact Hc]);
      exact Hvalid ].
Qed.

Lemma echo_request_path_frame cfg dev w :
  device_ok cfg dev →
  payload_ok cfg dev →
  icmp_field cfg dev off_type 1 = [ICMPv6_ECHO_REQUEST] →
  ∃ dev' w', icmpv6_input cfg (dev, w) = Some (tt, (dev', w')) ∧
    take (NET_LL_HDRLEN cfg dev) (d_buf dev')
    = take (NET_LL_HDRLEN cfg dev) (d_buf dev) ∧
    icmp_field cfg dev' 0 off_srcipaddr = icmp_field cfg dev 0 off_srcipaddr ∧
    icmp_field cfg dev' off_icode 1 = icmp_field cfg dev off_icode 1.
Proof.
  intros (Hip & Hmac & Hbuf & Heth) Hpay Htype.
  unfold payload_ok in Hpay.
  remember (icmp_paylen cfg dev) as n eqn:Hn.
  wp_start b Hb. unfold icmp_paylen, icmp_field in Hn. rewrite <- Hb in Hn.
  wp_steps b Hb.
  change (ICMPv6_ECHO_REQUEST =? ICMPv6_NEIGHBOR_SOLICIT)%Z with false.
  rewrite Z.eqb_refl.
  wp_steps b Hb. wp_chksum b Hb Hn c Hc. wp_steps b Hb.
  change (NET_LL_HDRLEN cfg _) with (NET_LL_HDRLEN cfg dev). rewrite <- Hb.
  dev_simpl.
  change (take b ?l) with (slice 0 b l). repeat split; by chase.
Qed.

(** *** Every path at once, with the size of the buffer

    The stores of [wlp_rules] forget the new buffer; here they keep its
    length. *)

Lemma wlp_buf_store_len off bs (Q : unit → state → Prop) dev w :
  (∀ buf', length buf' = length (d_buf dev) → Q tt (set_d_buf buf' dev, w)) →
  wlp (buf_store off bs) Q (dev, w).
Proof.
  intros HQ. unfold buf_store. apply wlp_bind, wlp_get_dev.
  apply wlp_bind, wlp_lift_option. intros buf' Hbuf. apply wlp_modify_dev.
  apply HQ. unfold poke in Hbuf. case_decide; simplify_eq.
  by apply length_splice.
Qed.

Lemma wlp_buf_memcpy_len off src n (Q : unit → state → Prop) dev w :
  (∀ buf', length buf' = length (d_buf dev) → Q tt (set_d_buf buf' dev, w)) →
  wlp (buf_memcpy off src n) Q (dev, w).
Proof.
  intros HQ. unfold buf_memcpy. apply wlp_bind, wlp_lift_option. intros bs _.
  by apply wlp_buf_store_len.
Qed.

Lemma wlp_icmp_store_len cfg off bs (Q : unit → state → Prop) dev w :
  (∀ buf', length buf' = length (d_buf dev) → Q tt (set_d_buf buf' dev, w)) →
  wlp (icmp_store cfg off bs) Q (dev, w).
Proof.
  intros HQ. unfold icmp_store. apply wlp_bind, wlp_get_dev.
  by apply wlp_buf_store_len.
Qed.

Lemma wlp_icmp_memcpy_len cfg off src n (Q : unit → state → Prop) dev w :
  (∀ buf', length buf' = length (d_buf dev) → Q tt (set_d_buf buf' dev, w)) →
  wlp (icmp_memcpy cfg off src n) Q (dev, w).
Proof.
  intros HQ. unfold icmp_memcpy. apply wlp_bind, wlp_get_dev.
  by apply wlp_buf_memcpy_len.
Qed.

Ltac wlp_len_step :=
  lazymatch goal with
  | |- wlp (icmp_store _ _ _) _ _ =>
      apply wlp_icmp_store_len; intros ? ?; dev_simpl
  | |- wlp (icmp_memcpy _ _ _ _) _ _ =>
      apply wlp_icmp_memcpy_len; intros ? ?; dev_simpl
  | |- wlp (buf_store _ _) _ _ =>
      apply wlp_buf_store_len; intros ? ?; dev_simpl
  | |- wlp (buf_memcpy _ _ _) _ _ =>
      apply wlp_buf_memcpy_len; intros ? ?; dev_simpl
  | |- _ => wlp_step
  end.

Ltac wlp_len_steps := repeat (wlp_len_step; cbv beta iota).

Lemma g_echocallback_netstats cfg f w0 :
  g_echocallback (if CONFIG_NET_STATISTICS cfg
                  then set_g_netstats f w0 else w0) = g_echocallback w0.
Proof. by destruct (CONFIG_NET_STATISTICS cfg). Qed.

(** *** Echo replies nobody claims *)

(** X1: an Echo Reply that arrives while a chain of waiters is registered
    and that the chain does not claim (it returns the flags it was given,
    ICMPv6_ECHOREPLY) is dropped through the [drop] label, not through
    [typeerr]: the chain is run exactly once, the dropped counter is
    incremented by one, the type_error counter and the two sent counters
    are left as they are, and the device is the one the chain returned with
    its length set to zero. *)
Theorem echo_reply_unclaimed_is_dropped cfg dev w chain :
  CONFIG_NET_STATISTICS cfg = true →
  CONFIG_NET_ICMPv6v6_PING cfg = true →
  device_ok cfg dev →
  icmp_field cfg dev off_type 1 = [ICMPv6_ECHO_REPLY] →
  g_echocallback w = Some chain →
  let dev1 := set_d_flags (IFF_SET_IPv6 cfg (d_flags dev)) dev in
  (chain dev1 (ICMPv6_ECHOREPLY cfg)).2 = ICMPv6_ECHOREPLY cfg →
  ∃ dev' w', icmpv6_input cfg (dev, w) = Some (tt, (dev', w')) ∧
    calls w' = calls w ++ [Call_devif_callback_execute (ICMPv6_ECHOREPLY cfg)] ∧
    dev' = set_d_len 0 (chain dev1 (ICMPv6_ECHOREPLY cfg)).1 ∧
    icmpv6_drop (g_netstats w') = stat_incr cfg (icmpv6_drop (g_netstats w)) ∧
    icmpv6_typeerr (g_netstats w') = icmpv6_typeerr (g_netstats w) ∧
    icmpv6_sent (g_netstats w') = icmpv6_sent (g_netstats w) ∧
    ip_sent (g_netstats w') = ip_sent (g_netstats w).
Proof.
  intros Hstat Hping (Hip & Hmac & Hbuf & Heth) Htype Hcb dev1 Hsame.
  wp_start b Hb. wp_steps b Hb.
  change (ICMPv6_ECHO_REPLY =? ICMPv6_NEIGHBOR_SOLICIT)%Z with false.
  change (ICMPv6_ECHO_REPLY =? ICMPv6_ECHO_REQUEST)%Z with false.
  cbv iota. wp_steps b Hb.
  rewrite Hping, Z.eqb_refl. cbn [g_echocallback set_g_netstats andb].
  rewrite Hcb, bool_decide_true by done. wp_steps b Hb.
  fold dev1. rewrite Hsame, Z.eqb_refl. wp_steps b Hb.
  done.
Qed.

Lemma echo_reply_unclaimed_is_dropped_witness :
  ∃ dev' w',
    icmpv6_input cfg_eth (dev_echo_reply, world_ignored) = Some (tt, (dev', w')) ∧
    calls w' = [Call_devif_callback_execute (ICMPv6_ECHOREPLY cfg_eth)] ∧
    d_len dev' = 0%Z ∧
    icmpv6_drop (g_netstats w') = 4%Z ∧
    icmpv6_typeerr (g_netstats w') = 1%Z.
Proof.
  destruct (echo_reply_unclaimed_is_dropped cfg_eth dev_echo_reply
              world_ignored ignoring_waiter)
    as (dev' & w' & Hrun & Hcalls & Hdev & Hdrop & Hte & _);
    [reflexivity | reflexivity | repeat split; vm_compute; lia | reflexivity
    | reflexivity | reflexivity |].
  exists dev', w'. split; [exact Hrun|]. split; [exact Hcalls|].
  split; [by rewrite Hdev|]. split; [exact Hdrop|exact Hte].
Defined.

(** X2: in a build without echo waiting the branch of the Echo Reply is
    not compiled, and an Echo Reply is a message of unsupported type
    whether or not a chain of waiters is registered: type_error and dropped
    are incremented by one each, the length of the buffer is set to zero,
    the buffer is as received and the chain is not run. *)
Theorem echo_reply_unsupported_without_waiting cfg dev w :
  CONFIG_NET_STATISTICS cfg = true →
  CONFIG_NET_ICMPv6v6_PING cfg = false →
  device_ok cfg dev →
  icmp_field cfg dev off_type 1 = [ICMPv6_ECHO_REPLY] →
  ∃ dev' w', icmpv6_input cfg (dev, w) = Some (tt, (dev', w')) ∧
    icmpv6_typeerr (g_netstats w') = stat_incr cfg (icmpv6_typeerr (g_netstats w)) ∧
    icmpv6_drop (g_netstats w') = stat_incr cfg (icmpv6_drop (g_netstats w)) ∧
    d_len dev' = 0%Z ∧
    d_buf dev' = d_buf dev ∧
    calls w' = calls w.
Proof.
  intros Hstat Hping (Hip & Hmac & Hbuf & Heth) Htype.
  wp_start b Hb. wp_steps b Hb.
  change (ICMPv6_ECHO_REPLY =? ICMPv6_NEIGHBOR_SOLICIT)%Z with false.
  change (ICMPv6_ECHO_REPLY =? ICMPv6_ECHO_REQUEST)%Z with false.
  cbv iota. wp_steps b Hb.
  rewrite Hping. cbn [andb]. wp_steps b Hb. done.
Qed.

Lemma echo_reply_unsupported_without_waiting_witness :
  ∃ dev' w',
    icmpv6_input cfg_nowaiting (dev_echo_reply, world_waiting)
    = Some (tt, (dev', w')) ∧
    icmpv6_typeerr (g_netstats w') = 2%Z ∧
    icmpv6_drop (g_netstats w') = 4%Z ∧
    d_len dev' = 0%Z ∧
    calls w' = [].
Proof.
  destruct (echo_reply_unsupported_without_waiting cfg_nowaiting
              dev_echo_reply world_waiting)
    as (dev' & w' & Hrun & Hte & Hdrop & Hlen & _ & Hcalls);
    [reflexivity | reflexivity | repeat split; vm_compute; lia | reflexivity |].
  exists dev', w'. split; [exact Hrun|]. split; [exact Hte|].
  split; [exact Hdrop|]. split; [exact Hlen|exact Hcalls].
Defined.

(** *** The frame around the advertisement *)

(** X3: on a device whose frames carry an Ethernet header, answering a
    Neighbor Solicitation for the address of the node also rewrites that
    header: the destination hardware address of the frame becomes the
    source hardware address of the inbound frame, the source hardware
    address becomes the hardware address of the node, and the two bytes of
    the type field behind them are left as they are. *)
Theorem advertisement_swaps_ethernet_addresses cfg dev w :
  device_ok cfg dev →
  payload_ok cfg dev →
  icmp_field cfg dev off_type 1 = [ICMPv6_NEIGHBOR_SOLICIT] →
  icmp_field cfg dev off_icmpv6data 16 = d_ipv6addr dev →
  eth_rewrites cfg dev = true →
  ∃ dev' w', icmpv6_input cfg (dev, w) = Some (tt, (dev', w')) ∧
    slice off_eth_dest ETHER_ADDR_LEN (d_buf dev')
    = slice off_eth_src ETHER_ADDR_LEN (d_buf dev) ∧
    slice off_eth_src ETHER_ADDR_LEN (d_buf dev') = d_mac dev ∧
    slice (2 * ETHER_ADDR_LEN) (ETH_HDRLEN - 2 * ETHER_ADDR_LEN) (d_buf dev')
          = slice (2 * ETHER_ADDR_LEN) (ETH_HDRLEN - 2 * ETHER_ADDR_LEN) (d_buf dev).
Proof.
  intros Hok Hpay Htype Htgt Heth.
  destruct (solicit_path_frame cfg dev w Hok Hpay Htype Htgt)
    as (dev' & w' & Hrun & _ & _ & _ & Hll & _).
  rewrite Heth in Hll. by exists dev', w'.
Qed.

Lemma advertisement_swaps_ethernet_addresses_witness :
  ∃ dev' w', icmpv6_input cfg_eth (dev_solicit, world0) = Some (tt, (dev', w')) ∧
    slice off_eth_dest ETHER_ADDR_LEN (d_buf dev') = mac_peer ∧
    slice off_eth_src ETHER_ADDR_LEN (d_buf dev') = mac_own.
Proof.
  destruct (advertisement_swaps_ethernet_addresses cfg_eth dev_solicit world0)
    as (dev' & w' & Hrun & Hdst & Hsrc & _).
  - repeat split; vm_compute; lia.
  - unfold payload_ok. vm_compute. lia.
  - reflexivity.
  - reflexivity.
  - reflexivity.
  - exists dev', w'. split; [exact Hrun|]. split; [exact Hdst|exact Hsrc].
Defined.

(** X4: where the Ethernet header is not rewritten, because the build has
    no Ethernet or because the device of a build with several link layers
    is not an Ethernet device, answering a Neighbor Solicitation for the
    address of the node leaves every byte in front of the IPv6 header as it
    is. *)
Theorem advertisement_keeps_other_link_header cfg dev w :
  device_ok cfg dev →
  payload_ok cfg dev →
  icmp_field cfg dev off_type 1 = [ICMPv6_NEIGHBOR_SOLICIT] →
  icmp_field cfg dev off_icmpv6data 16 = d_ipv6addr dev →
  eth_rewrites cfg dev = false →
  ∃ dev' w', icmpv6_input cfg (dev, w) = Some (tt, (dev', w')) ∧
    take (NET_LL_HDRLEN cfg dev) (d_buf dev')
    = take (NET_LL_HDRLEN cfg dev) (d_buf dev).
Proof.
  intros Hok Hpay Htype Htgt Heth.
  destruct (solicit_path_frame cfg dev w Hok Hpay Htype Htgt)
    as (dev' & w' & Hrun & _ & _ & _ & Hll & _).
  rewrite Heth in Hll. by exists dev', w'.
Qed.

Lemma advertisement_keeps_other_link_header_witness :
  ∃ dev' w',
    icmpv6_input cfg_multilink (dev_solicit_ppp, world0) = Some (tt, (dev', w')) ∧
    take 4 (d_buf dev') = [255; 3; 0; 87]%Z.
Proof.
  destruct (advertisement_keeps_other_link_header cfg_multilink
              dev_solicit_ppp world0)
    as (dev' & w' & Hrun & Hll).
  - repeat split; vm_compute; (lia || congruence).
  - unfold payload_ok. vm_compute. lia.
  - reflexivity.
  - reflexivity.
  - reflexivity.
  - exists dev', w'. split; [exact Hrun|exact Hll].
Defined.

(** X5: the advertisement keeps what the solicitation carried in the first
    eight bytes of the IPv6 header, that is version, traffic class, flow
    label, payload length, next header and hop limit, and in the code
    byte; its target address field is not written either and holds the
    address of the node. *)
Theorem advertisement_keeps_header_and_target cfg dev w :
  device_ok cfg dev →
  payload_ok cfg dev →
  icmp_field cfg dev off_type 1 = [ICMPv6_NEIGHBOR_SOLICIT] →
  icmp_field cfg dev off_icmpv6data 16 = d_ipv6addr dev →
  ∃ dev' w', icmpv6_input cfg (dev, w) = Some (tt, (dev', w')) ∧
    icmp_field cfg dev' 0 off_srcipaddr = icmp_field cfg dev 0 off_srcipaddr ∧
    icmp_field cfg dev' off_icode 1 = icmp_field cfg dev off_icode 1 ∧
    icmp_field cfg dev' off_icmpv6data 16 = d_ipv6addr dev.
Proof.
  intros Hok Hpay Htype Htgt.
  destruct (solicit_path_frame cfg dev w Hok Hpay Htype Htgt)
    as (dev' & w' & Hrun & Hhdr & Hcode & Htgt' & _).
  by exists dev', w'.
Qed.

Lemma advertisement_keeps_header_and_target_witness :
  ∃ dev' w', icmpv6_input cfg_eth (dev_solicit, world0) = Some (tt, (dev', w')) ∧
    icmp_field cfg_eth dev' 0 off_srcipaddr = [96; 0; 0; 0; 0; 32; 58; 255]%Z ∧
    icmp_field cfg_eth dev' off_icmpv6data 16 = addr_own.
Proof.
  destruct (advertisement_keeps_header_and_target cfg_eth dev_solicit world0)
    as (dev' & w' & Hrun & Hhdr & _ & Htgt).
  - repeat split; vm_compute; lia.
  - unfold payload_ok. vm_compute. lia.
  - reflexivity.
  - reflexivity.
  - exists dev', w'. split; [exact Hrun|]. split; [exact Hhdr|exact Htgt].
Defined.

(** X6: the advertisement validates: with the checksum engine of the
    design document, bytes in the buffer and in the addresses of the node,
    and a payload of at least the four bytes of the ICMPv6 header, the
    one's-complement sum of the words of pseudo-header and message of the
    advertisement is all ones.  The rewriting of the Ethernet header, which
    follows the computation of the checksum, does not disturb it. *)
Theorem advertisement_checksum_validates cfg dev w :
  device_ok cfg dev →
  payload_ok cfg dev →
  Forall is_byte (d_buf dev) →
  Forall is_byte (d_ipv6addr dev) →
  Forall is_byte (d_mac dev) →
  icmp_field cfg dev off_type 1 = [ICMPv6_NEIGHBOR_SOLICIT] →
  icmp_field cfg dev off_icmpv6data 16 = d_ipv6addr dev →
  4 ≤ icmp_paylen cfg dev →
  ∃ dev' w', icmpv6_input cfg (dev, w) = Some (tt, (dev', w')) ∧
    icmpv6_chksum_valid cfg dev'.
Proof.
  intros Hok Hpay Hbytes Hipb Hmacb Htype Htgt Hn4.
  destruct (solicit_path_frame cfg dev w Hok Hpay Htype Htgt)
    as (dev' & w' & Hrun & _ & _ & _ & _ & Hvalid).
  exists dev', w'. split; [exact Hrun|]. by apply Hvalid.
Qed.

Lemma advertisement_checksum_validates_witness :
  ∃ dev' w', icmpv6_input cfg_eth (dev_solicit, world0) = Some (tt, (dev', w')) ∧
    icmpv6_chksum_valid cfg_eth dev'.
Proof.
  apply (advertisement_checksum_validates cfg_eth dev_solicit world0).
  - repeat split; vm_compute; lia.
  - unfold payload_ok. vm_compute. lia.
  - apply (bool_decide_unpack _). vm_compute. exact I.
  - apply (bool_decide_unpack _). vm_compute. exact I.
  - apply (bool_decide_unpack _). vm_compute. exact I.
  - reflexivity.
  - reflexivity.
  - vm_compute. lia.
Defined.

(** *** The frame around the echo reply *)

(** X7: answering an Echo Request writes nothing in front of the source
    address of the IPv6 header: the link-layer header, whose Ethernet
    addresses are not exchanged on this path, and the first eight bytes of
    the IPv6 header, hop limit included, are as received; so is the code
    byte of the message. *)
Theorem echo_reply_keeps_headers cfg dev w :
  device_ok cfg dev →
  payload_ok cfg dev →
  icmp_field cfg dev off_type 1 = [ICMPv6_ECHO_REQUEST] →
  ∃ dev' w', icmpv6_input cfg (dev, w) = Some (tt, (dev', w')) ∧
    take (NET_LL_HDRLEN cfg dev) (d_buf dev')
    = take (NET_LL_HDRLEN cfg dev) (d_buf dev) ∧
    icmp_field cfg dev' 0 off_srcipaddr = icmp_field cfg dev 0 off_srcipaddr ∧
    icmp_field cfg dev' off_icode 1 = icmp_field cfg dev off_icode 1.
Proof.
  intros Hok Hpay Htype.
  destruct (echo_request_path_frame cfg dev w Hok Hpay Htype)
    as (dev' & w' & Hrun & Hll & Hhdr & Hcode).
  by exists dev', w'.
Qed.

Lemma echo_reply_keeps_headers_witness :
  ∃ dev' w',
    icmpv6_input cfg_eth (dev_echo_request, world0) = Some (tt, (dev', w')) ∧
    take 14 (d_buf dev') = eth_hdr mac_own mac_peer.
Proof.
  destruct (echo_reply_keeps_headers cfg_eth dev_echo_request world0)
    as (dev' & w' & Hrun & Hll & _).
  - repeat split; vm_compute; lia.
  - unfold payload_ok. vm_compute. lia.
  - reflexivity.
  - exists dev', w'. split; [exact Hrun|exact Hll].
Defined.

(** *** Every invocation, continued *)

(** X8: every invocation leaves through exactly one of the three exits of
    the function.  Either the message counts as sent: the icmpv6 sent and
    the ip sent counter are incremented by one each, the dropped and the
    type_error counter are left.  Or it is dropped: the dropped counter is
    incremented, the sent counters and the type_error counter are left,
    the length of the buffer is zero and the buffer holds what was received
    (what the waiters left of it, where they were run).  Or its type is not
    supported: type_error and dropped are incremented, the sent counters
    are left, the length is zero, the buffer is as received and no call was
    made.  In particular no message is rewritten and then dropped, and
    type_error is never incremented without dropped. *)
Theorem one_exit_per_invocation cfg dev w :
  CONFIG_NET_STATISTICS cfg = true →
  device_ok cfg dev →
  payload_ok cfg dev →
  ∃ dev' w', icmpv6_input cfg (dev, w) = Some (tt, (dev', w')) ∧
    let s := g_netstats w in
    let s' := g_netstats w' in
    (icmpv6_sent s' = stat_incr cfg (icmpv6_sent s)
     ∧ ip_sent s' = stat_incr cfg (ip_sent s)
     ∧ icmpv6_drop s' = icmpv6_drop s
     ∧ icmpv6_typeerr s' = icmpv6_typeerr s)
    ∨ (icmpv6_sent s' = icmpv6_sent s
       ∧ ip_sent s' = ip_sent s
       ∧ icmpv6_drop s' = stat_incr cfg (icmpv6_drop s)
       ∧ icmpv6_typeerr s' = icmpv6_typeerr s
       ∧ d_len dev' = 0%Z
       ∧ d_buf dev' = d_buf (after_waiters cfg dev w))
    ∨ (icmpv6_sent s' = icmpv6_sent s
       ∧ ip_sent s' = ip_sent s
       ∧ icmpv6_drop s' = stat_incr cfg (icmpv6_drop s)
       ∧ icmpv6_typeerr s' = stat_incr cfg (icmpv6_typeerr s)
       ∧ d_len dev' = 0%Z
       ∧ d_buf dev' = d_buf dev
       ∧ calls w' = calls w).
Proof.
  intros Hstat Hok Hpay.
  destruct (icmpv6_input_defined cfg dev w Hok Hpay) as (dev' & w' & Hrun).
  exists dev', w'. split; [done|].
  revert dev' w' Hrun. apply wlp_unit_result. unfold icmpv6_input.
  do 6 (wlp_step; cbv beta iota).
  assert (Hv : icmp_field cfg dev off_type 1 = [v]) by done.
  destruct (decide (v = ICMPv6_ECHO_REPLY)) as [->|Hne].
  2:{ rewrite (after_waiters_other cfg dev w v) by done.
      rewrite (Zeqb_ne v ICMPv6_ECHO_REPLY), andb_false_r by done.
      cbn [andb]. wlp_steps.
      all: rewrite ?Hstat; cbn; auto 10. }
  change (ICMPv6_ECHO_REPLY =? ICMPv6_NEIGHBOR_SOLICIT)%Z with false.
  change (ICMPv6_ECHO_REPLY =? ICMPv6_ECHO_REQUEST)%Z with false.
  cbv iota. rewrite Z.eqb_refl, andb_true_r.
  unfold after_waiters. rewrite Hv, bool_decide_true, andb_true_r by done.
  do 3 (wlp_step; cbv beta iota).
  rewrite !g_echocallback_netstats.
  destruct (CONFIG_NET_ICMPv6v6_PING cfg), (g_echocallback w) eqn:Hcb;
    cbn [andb]; rewrite ?bool_decide_true by done;
    rewrite ?bool_decide_false by (by intros [? ?]);
    wlp_steps.
  all: rewrite ?Hstat; cbn; auto 10.
Qed.

Lemma one_exit_per_invocation_witness :
  ∃ dev' w',
    icmpv6_input cfg_eth (dev_solicit_other, world0) = Some (tt, (dev', w')) ∧
    ((icmpv6_sent (g_netstats w') = 6%Z ∧ icmpv6_drop (g_netstats w') = 3%Z)
     ∨ (icmpv6_sent (g_netstats w') = 5%Z ∧ icmpv6_drop (g_netstats w') = 4%Z)).
Proof.
  destruct (one_exit_per_invocation cfg_eth dev_solicit_other world0)
    as (dev' & w' & Hrun & Hexit).
  - reflexivity.
  - repeat split; vm_compute; lia.
  - unfold payload_ok. vm_compute. lia.
  - exists dev', w'. split; [exact Hrun|].
    destruct Hexit as [(Hs & _ & Hd & _)|[(Hs & _ & Hd & _)|(Hs & _ & Hd & _)]];
      [left|right|right]; split; first [exact Hs | exact Hd].
Defined.

(** X9: an invocation calls the two collaborators that have state, the
    Neighbor Cache and the chain of echo waiters, at most once between
    them, and the message decides which.  The Neighbor Cache is called
    only for a Neighbor Solicitation whose target is the address of the
    node and whose first option byte is Source-Link-Layer-Address, with
    the source address of the packet and the six bytes behind the option
    header; the chain of waiters is run only where echo waiting is
    compiled in, for an Echo Reply, with a chain registered; on every
    other invocation neither of the two is called.  (The checksum engine,
    which the two reply paths call, is not one of them.) *)
Theorem collaborators_called_at_most_once cfg dev w :
  device_ok cfg dev →
  payload_ok cfg dev →
  ∃ dev' w', icmpv6_input cfg (dev, w) = Some (tt, (dev', w')) ∧
    (calls w' = calls w
     ∨ (icmp_field cfg dev off_type 1 = [ICMPv6_NEIGHBOR_SOLICIT]
        ∧ icmp_field cfg dev off_icmpv6data 16 = d_ipv6addr dev
        ∧ icmp_field cfg dev off_options 1 = [ICMPv6_OPTION_SOURCE_LINK_ADDRESS]
        ∧ calls w' = calls w ++
            [Call_net_neighbor_add (icmp_field cfg dev off_srcipaddr 16)
               (icmp_field cfg dev (off_options + 2) IFHWADDRLEN)])
     ∨ (CONFIG_NET_ICMPv6v6_PING cfg = true
        ∧ icmp_field cfg dev off_type 1 = [ICMPv6_ECHO_REPLY]
        ∧ is_Some (g_echocallback w)
        ∧ calls w' = calls w ++
            [Call_devif_callback_execute (ICMPv6_ECHOREPLY cfg)])).
Proof.
  intros Hok Hpay.
  destruct (icmpv6_input_defined cfg dev w Hok Hpay) as (dev' & w' & Hrun).
  exists dev', w'. split; [done|].
  revert dev' w' Hrun. apply wlp_unit_result. unfold icmpv6_input.
  wlp_steps.
  all: repeat match goal with
       | H : (_ =? _)%Z = true |- _ => apply Z.eqb_eq in H
       | H : net_ipv6addr_cmp _ _ = true |- _ =>
           apply bool_decide_eq_true in H
       | H : _ && _ = true |- _ => apply andb_prop in H; destruct H
       | H : bool_decide _ = true |- _ => apply bool_decide_eq_true in H
       end.
  all: destruct (CONFIG_NET_STATISTICS cfg);
    cbn [calls log_call set_g_netstats fst snd g_echocallback] in *.
  all: subst.
  all: first [ left; reflexivity
             | right; left; repeat split; first [assumption | reflexivity]
             | right; right; repeat split;
               first [assumption | reflexivity | by eexists] ].
Qed.

(** On the solicitation [dev_solicit] the waiters are not run: the log
    holds no call, or the one call to the Neighbor Cache with the address
    and the hardware address of the peer. *)
Lemma collaborators_called_at_most_once_witness :
  ∃ dev' w', icmpv6_input cfg_eth (dev_solicit, world0) = Some (tt, (dev', w')) ∧
    (calls w' = [] ∨ calls w' = [Call_net_neighbor_add addr_peer mac_peer]).
Proof.
  destruct (collaborators_called_at_most_once cfg_eth dev_solicit world0)
    as (dev' & w' & Hrun & Hcalls).
  - repeat split; vm_compute; lia.
  - unfold payload_ok. vm_compute. lia.
  - exists dev', w'. split; [exact Hrun|].
    destruct Hcalls as [Hc|[(_ & _ & _ & Hc)|(_ & Hty & _)]];
      [left; exact Hc | right; exact Hc | discriminate Hty].
Defined.

(** X10: in a build without statistics no counter is touched, whatever the
    message and whatever the exit. *)
Theorem no_statistics_no_counter cfg dev w :
  CONFIG_NET_STATISTICS cfg = false →
  device_ok cfg dev →
  payload_ok cfg dev →
  ∃ dev' w', icmpv6_input cfg (dev, w) = Some (tt, (dev', w')) ∧
    g_netstats w' = g_netstats w.
Proof.
  intros Hstat Hok Hpay.
  destruct (icmpv6_input_defined cfg dev w Hok Hpay) as (dev' & w' & Hrun).
  exists dev', w'. split; [done|].
  revert dev' w' Hrun. apply wlp_unit_result. unfold icmpv6_input.
  wlp_steps; by rewrite ?Hstat.
Qed.

Lemma no_statistics_no_counter_witness :
  ∃ dev' w', icmpv6_input cfg_nostat (dev_unknown, world0) = Some (tt, (dev', w')) ∧
    g_netstats w' = stats0.
Proof.
  apply (no_statistics_no_counter cfg_nostat dev_unknown world0).
  - reflexivity.
  - repeat split; vm_compute; lia.
  - unfold payload_ok. vm_compute. lia.
Defined.

(** X11: [icmpv6_input] changes the device in three places only: the flags,
    the contents of the buffer and the declared length.  After every
    invocation the hardware address and the IPv6 address of the node, the
    link type, the length of the link-layer header and the size of the
    buffer array are those of the device as the waiters left it (the
    inbound device wherever no chain is run), and the registration of the
    waiters is as before.  Where no chain is run, the flags are the
    inbound flags with the IPv6 bit set. *)
Theorem device_setup_is_kept cfg dev w :
  device_ok cfg dev →
  payload_ok cfg dev →
  ∃ dev' w', icmpv6_input cfg (dev, w) = Some (tt, (dev', w')) ∧
    let devw := after_waiters cfg dev w in
    d_mac dev' = d_mac devw ∧
    d_ipv6addr dev' = d_ipv6addr devw ∧
    d_lltype dev' = d_lltype devw ∧
    d_llhdrlen dev' = d_llhdrlen devw ∧
    length (d_buf dev') = length (d_buf devw) ∧
    g_echocallback w' = g_echocallback w ∧
    (icmp_field cfg dev off_type 1 ≠ [ICMPv6_ECHO_REPLY]
     ∨ g_echocallback w = None ∨ CONFIG_NET_ICMPv6v6_PING cfg = false →
     d_flags dev' = IFF_SET_IPv6 cfg (d_flags dev)).
Proof.
  intros Hok Hpay.
  destruct (icmpv6_input_defined cfg dev w Hok Hpay) as (dev' & w' & Hrun).
  exists dev', w'. split; [done|].
  revert dev' w' Hrun. apply wlp_unit_result. unfold icmpv6_input.
  do 6 (wlp_step; cbv beta iota).
  assert (Hv : icmp_field cfg dev off_type 1 = [v]) by done.
  destruct (decide (v = ICMPv6_ECHO_REPLY)) as [->|Hne].
  2:{ rewrite (after_waiters_other cfg dev w v) by done.
      rewrite (Zeqb_ne v ICMPv6_ECHO_REPLY), andb_false_r by done.
      cbn [andb]. wlp_len_steps.
      all: destruct (CONFIG_NET_STATISTICS cfg); cbn.
      all: repeat split; auto; congruence. }
  change (ICMPv6_ECHO_REPLY =? ICMPv6_NEIGHBOR_SOLICIT)%Z with false.
  change (ICMPv6_ECHO_REPLY =? ICMPv6_ECHO_REQUEST)%Z with false.
  cbv iota. rewrite Z.eqb_refl, andb_true_r.
  unfold after_waiters. rewrite Hv, bool_decide_true, andb_true_r by done.
  do 3 (wlp_step; cbv beta iota).
  rewrite !g_echocallback_netstats.
  destruct (CONFIG_NET_ICMPv6v6_PING cfg), (g_echocallback w) eqn:Hcb;
    cbn [andb]; rewrite ?bool_decide_true by done;
    rewrite ?bool_decide_false by (by intros [? ?]);
    wlp_len_steps.
  all: destruct (CONFIG_NET_STATISTICS cfg); cbn.
  all: repeat split; auto; try congruence.
  all: intros [?|[?|?]]; congruence.
Qed.

Lemma device_setup_is_kept_witness :
  ∃ dev' w', icmpv6_input cfg_eth (dev_solicit, world0) = Some (tt, (dev', w')) ∧
    d_mac dev' = mac_own ∧
    d_ipv6addr dev' = addr_own ∧
    length (d_buf dev') = 102 ∧
    d_flags dev' = 10%Z.
Proof.
  destruct (device_setup_is_kept cfg_eth dev_solicit world0)
    as (dev' & w' & Hrun & Hmac & Hip & _ & _ & Hlen & _ & Hflags).
  - repeat split; vm_compute; lia.
  - unfold payload_ok. vm_compute. lia.
  - exists dev', w'. split; [exact Hrun|]. split; [exact Hmac|].
    split; [exact Hip|]. split; [exact Hlen|].
    apply Hflags. right. left. reflexivity.
Defined.
